(** * HyperCLOVA client: SSE parsing, stream decoding, request shaping, retry

    A shallow embedding of the parts of [hyperclova/streaming.py],
    [hyperclova/utils.py], [hyperclova/completions.py] and
    [hyperclova/models.py] that the specification talks about, followed by
    the properties proved (or refuted) about them.

    Conventions.
    - A Python [str] is a [string] whose characters are the code points
      0..255; Python's white space on that range is [Py.isspace].
    - A function that may raise returns a sum: [inl] is the value returned,
      [inr] the exception raised.
    - A generator is a state machine: its suspended state is spelled out and
      [next]/[close] are transition functions. *)

From Stdlib Require Import String Ascii List ZArith Lia Bool Arith PeanoNat.
From Stdlib Require Import Floats.
From Stdlib Require Import Decimal DecimalString.
Import ListNotations.
Set Warnings "-register-all".
Local Open Scope string_scope.
Local Open Scope list_scope.

(* ================================================================== *)
(** ** Python string primitives used by the sources *)
(* ================================================================== *)

Module Py.

(** [str.isspace] on one character (code points below 256):
    TAB..CR, FS..US, SPACE, NEL and NBSP. *)
Definition isspace (c : ascii) : bool :=
  let n := nat_of_ascii c in
  (((9 <=? n) && (n <=? 13)) || ((28 <=? n) && (n <=? 32))
   || (n =? 133) || (n =? 160))%nat.

(** [s.lstrip()] *)
Fixpoint lstrip (s : string) : string :=
  match s with
  | EmptyString => EmptyString
  | String c s' => if isspace c then lstrip s' else s
  end.

(** [s.rstrip()] *)
Fixpoint rstrip (s : string) : string :=
  match s with
  | EmptyString => EmptyString
  | String c s' =>
      match rstrip s' with
      | EmptyString => if isspace c then EmptyString else String c EmptyString
      | r => String c r
      end
  end.

(** [s.strip()] *)
Definition strip (s : string) : string := rstrip (lstrip s).

(** [s[n:]] *)
Fixpoint drop (n : nat) (s : string) : string :=
  match n, s with
  | O, _ => s
  | S _, EmptyString => EmptyString
  | S n', String _ s' => drop n' s'
  end.

(** [s.split(sep, 1)] for a [sep] that occurs in [s]: the text before the
    leftmost occurrence and the text after it.  [None] when [sep] does not
    occur in [s] (Python then returns the one-element list [[s]]), so
    [sep in s] is [split1 sep s <> None]. *)
Fixpoint split1 (sep s : string) : option (string * string) :=
  if prefix sep s then Some (EmptyString, drop (String.length sep) s)
  else match s with
       | EmptyString => None
       | String c s' =>
           match split1 sep s' with
           | Some (before, after) => Some (String c before, after)
           | None => None
           end
       end.

(** [sep in s] *)
Definition contains (sep s : string) : bool :=
  match split1 sep s with Some _ => true | None => false end.

(** [s.split(c)] for a one-character separator: every piece, in order;
    the empty string gives one empty piece. *)
Fixpoint split_char (c : ascii) (s : string) : list string :=
  match s with
  | EmptyString => [EmptyString]
  | String a s' =>
      if Ascii.eqb a c then EmptyString :: split_char c s'
      else match split_char c s' with
           | piece :: pieces => String a piece :: pieces
           | [] => [String a EmptyString]
           end
  end.

Definition is_digit (c : ascii) : bool :=
  let n := nat_of_ascii c in ((48 <=? n) && (n <=? 57))%nat.

Definition digit_val (c : ascii) : Z := Z.of_nat (nat_of_ascii c) - 48.

(** The digits of a decimal literal: at least one digit, single
    underscores allowed between digits only. *)
Fixpoint int_digits (s : string) (acc : Z) (after_digit : bool) : option Z :=
  match s with
  | EmptyString => if after_digit then Some acc else None
  | String c s' =>
      if is_digit c then int_digits s' (10 * acc + digit_val c)%Z true
      else if Ascii.eqb c "_" && after_digit then int_digits s' acc false
      else None
  end.

(** [int(s)] in base 10: [None] stands for [ValueError].  Surrounding
    white space is ignored, one sign is allowed.  The literal may be of
    any length: CPython from 3.11 on refuses, with the same [ValueError],
    one of more than 4300 digits under its default settings.  The only
    caller swallows the [ValueError], so the difference can show in the
    [retry] field of a frame alone, and nothing below is stated about
    that field. *)
Definition int (s : string) : option Z :=
  match strip s with
  | String "+" r => int_digits r 0%Z false
  | String "-" r => option_map Z.opp (int_digits r 0%Z false)
  | r => int_digits r 0%Z false
  end.

(** The truth value of an [Optional[str]]: [None] and the empty string
    are false. *)
Definition truthy (o : option string) : bool :=
  match o with
  | None => false
  | Some s => negb (s =? "")%string
  end.

End Py.

(** The two-character event terminator and the line and field separators. *)
Definition LF : ascii := "010"%char.
Definition NL : string := String LF EmptyString.
Definition NLNL : string := String LF (String LF EmptyString).

(** Every character of [s] satisfies [p]. *)
Fixpoint all_chars (p : ascii -> bool) (s : string) : bool :=
  match s with
  | EmptyString => true
  | String c s' => p c && all_chars p s'
  end.

(** A character other than the line feed. *)
Definition not_LF (c : ascii) : bool := negb (Ascii.eqb c LF).

(* ================================================================== *)
(** ** streaming.py: [SSEEvent] and [SSEParser] *)
(* ================================================================== *)

Module SSEEvent.
Record t : Type := mk {
  id : option string;
  event : option string;
  data : option string;
  retry : option Z
}.
(** [SSEEvent()] : every field [None]. *)
Definition empty : t := mk None None None None.
Definition set_id (e : t) (v : string) : t := mk (Some v) (event e) (data e) (retry e).
Definition set_event (e : t) (v : string) : t := mk (id e) (Some v) (data e) (retry e).
Definition set_data (e : t) (v : string) : t := mk (id e) (event e) (Some v) (retry e).
Definition set_retry (e : t) (v : Z) : t := mk (id e) (event e) (data e) (Some v).
End SSEEvent.

Module SSEParser.

(** The body of [for line in event_str.split("\n")] in [_parse_event]. *)
Definition parse_line (event : SSEEvent.t) (line : string) : SSEEvent.t :=
  if line =? "" then event
  else match Py.split1 ":" line with
       | None => event
       | Some (field, value) =>
           let value := Py.lstrip value in
           if field =? "id" then SSEEvent.set_id event value
           else if field =? "event" then SSEEvent.set_event event value
           else if field =? "data" then SSEEvent.set_data event value
           else if field =? "retry" then
             match Py.int value with
             | Some n => SSEEvent.set_retry event n
             | None => event
             end
           else event
       end.

(** [SSEParser._parse_event] *)
Definition _parse_event (event_str : string) : option SSEEvent.t :=
  if Py.strip event_str =? "" then None
  else
    let event := fold_left parse_line (Py.split_char LF event_str) SSEEvent.empty in
    if Py.truthy (SSEEvent.data event) then Some event else None.

(** The [while "\n\n" in self.buffer] loop of [parse]: the events yielded
    and the buffer left.  Every turn removes at least two characters from
    the buffer, so [String.length buffer] turns are enough
    ([parse_loop_fuel] below). *)
Fixpoint parse_loop (fuel : nat) (buffer : string) : list SSEEvent.t * string :=
  match fuel with
  | O => ([], buffer)
  | S fuel' =>
      match Py.split1 NLNL buffer with
      | None => ([], buffer)
      | Some (event_str, buffer') =>
          let (events, final) := parse_loop fuel' buffer' in
          match _parse_event event_str with
          | Some event => (event :: events, final)
          | None => (events, final)
          end
      end
  end.

(** [SSEParser.parse], run to the end of its generator: from the buffer
    held by the instance and the chunk, the events yielded in order and
    the buffer the instance holds afterwards. *)
Definition parse (buffer chunk : string) : list SSEEvent.t * string :=
  let buffer := (buffer ++ chunk)%string in
  parse_loop (String.length buffer) buffer.

(** One parser instance ([buffer] is its state) fed the chunks one
    [parse] call at a time. *)
Fixpoint feed (buffer : string) (chunks : list string) : list SSEEvent.t * string :=
  match chunks with
  | [] => ([], buffer)
  | chunk :: rest =>
      let (events, buffer') := parse buffer chunk in
      let (events', final) := feed buffer' rest in
      (events ++ events', final)
  end.

(** The value a line gives to the [data] field, if it is a [data] line. *)
Definition data_value (line : string) : option string :=
  if line =? "" then None
  else match Py.split1 ":" line with
       | Some (field, value) =>
           if field =? "data" then Some (Py.lstrip value) else None
       | None => None
       end.

(** The block has a [data] field: one of its lines is a [data] line. *)
Definition has_data_field (event_str : string) : bool :=
  existsb (fun line => match data_value line with Some _ => true | None => false end)
          (Py.split_char LF event_str).

(** The value of the last [data] line of the block. *)
Definition last_data (event_str : string) : option string :=
  fold_left (fun acc line => match data_value line with Some v => Some v | None => acc end)
            (Py.split_char LF event_str) None.

End SSEParser.

(** String concatenation of a list of chunks. *)
Definition join (chunks : list string) : string :=
  fold_right append EmptyString chunks.

(* ================================================================== *)
(** ** Exceptions and JSON values *)
(* ================================================================== *)

(** The exception classes that occur.  [StreamingError] is the class of
    [exceptions.py]; the others are Python's and pydantic's. *)
Inductive exn_class : Type :=
  | StreamingError
  | JSONDecodeError
  | AttributeError
  | KeyError
  | TypeError
  | ValueError
  | ValidationError
  | OtherException (name : string).

(** An exception object: its class and [str(e)].  For the classes of
    [exceptions.py], [str(e)] is the [message] given to the constructor
    ([HyperClovaError.__init__] passes it to [Exception.__init__]). *)
Record exn : Type := Exn { exn_cls : exn_class; exn_str : string }.

(** The call raises. *)
Definition raises {A : Type} (r : A + exn) : Prop := exists e, r = inr e.

Definition is_JSONDecodeError (e : exn) : bool :=
  match exn_cls e with JSONDecodeError => true | _ => false end.

(** What [json.loads] returns.  An object is the list of its members; a
    key is looked up from the front. *)
Inductive json : Type :=
  | JNull
  | JBool (b : bool)
  | JInt (n : Z)
  | JFloat (x : float)
  | JString (s : string)
  | JArray (items : list json)
  | JObject (members : list (string * json)).

(** [d.get(key)] on an association list. *)
Fixpoint assoc {V : Type} (key : string) (d : list (string * V)) : option V :=
  match d with
  | [] => None
  | (k, v) :: d' => if (k =? key)%string then Some v else assoc key d'
  end.

(** [d.get(key, default)] *)
Definition get_default {V : Type} (d : list (string * V)) (key : string) (default : V) : V :=
  match assoc key d with Some v => v | None => default end.

Definition opt_is (o : option string) (s : string) : bool :=
  match o with Some x => (x =? s)%string | None => false end.

Module JSON.
(** [type(j).__name__] *)
Definition type_name (j : json) : string :=
  match j with
  | JNull => "NoneType" | JBool _ => "bool" | JInt _ => "int"
  | JFloat _ => "float" | JString _ => "str" | JArray _ => "list"
  | JObject _ => "dict"
  end.

(** [j.get(key, default)]: only a dict has [get]. *)
Definition get (j : json) (key : string) (default : json) : json + exn :=
  match j with
  | JObject members => inl (get_default members key default)
  | _ => inr (Exn AttributeError
                ("'" ++ type_name j ++ "' object has no attribute 'get'"))
  end.

(** The status message embedded in an error body:
    [j["status"]["message"]] when both levels are there. *)
Definition status_message (j : json) : option json :=
  match j with
  | JObject members =>
      match assoc "status" members with
      | Some (JObject status) => assoc "message" status
      | _ => None
      end
  | _ => None
  end.
End JSON.

(* ================================================================== *)
(** ** streaming.py: [StreamingResponse] and [AsyncStreamingResponse] *)
(* ================================================================== *)

Section Decoder.

(** [ChatCompletionChunk] values, and the library functions the decoder
    calls: [json.loads] ([inr] is the text of the [JSONDecodeError]),
    the constructor [ChatCompletionChunk] applied to the decoded data (which may raise), and
    [str] on a JSON value that is not a string. *)
Variable Chunk : Type.
Variable json_loads : string -> json + string.
Variable ChatCompletionChunk : json -> Chunk + exn.
Variable py_str : json -> string.

(** [f"{j}"] *)
Definition format (j : json) : string :=
  match j with JString s => s | _ => py_str j end.

(** The [raise StreamingError(...)] of an [error] event, with the two
    [get] calls that build its message. *)
Definition error_event (data : json) : exn :=
  match JSON.get data "status" (JObject []) with
  | inr e => e
  | inl status =>
      match JSON.get status "message" (JString "Unknown error") with
      | inr e => e
      | inl message => Exn StreamingError ("Streaming error: " ++ format message)
      end
  end.

(** [_process_event], the same in both classes. *)
Definition _process_event (event : SSEEvent.t) : option Chunk + exn :=
  match SSEEvent.data event with
  | None => inl None
  | Some text =>
      if (text =? "")%string then inl None
      else
        let body : option Chunk + exn :=
          match json_loads text with
          | inr msg => inr (Exn JSONDecodeError msg)
          | inl data =>
              if opt_is (SSEEvent.event event) "error" then inr (error_event data)
              else if opt_is (SSEEvent.event event) "result" then
                match ChatCompletionChunk data with
                | inl chunk => inl (Some chunk)
                | inr e => inr e
                end
              else if opt_is (SSEEvent.event event) "token" then
                match ChatCompletionChunk data with
                | inl chunk => inl (Some chunk)
                | inr e => inr e
                end
              else inl None
          end in
        (* except json.JSONDecodeError as e *)
        match body with
        | inr e =>
            if is_JSONDecodeError e
            then inr (Exn StreamingError ("Invalid JSON in SSE: " ++ exn_str e))
            else inr e
        | inl r => inl r
        end
  end.

(** *** The generator [__iter__] as a state machine *)

(** What the inner loop [for event in self.parser.parse(...)] does until
    it next leaves the generator or ends: it yields a chunk, lets an
    exception out, or runs out of events.  [buffer] is
    [self.parser.buffer] at that point. *)
Inductive inner : Type :=
  | InnerYield (chunk : Chunk) (buffer : string)
  | InnerRaise (e : exn) (buffer : string)
  | InnerDone (buffer : string).

Fixpoint events_loop (fuel : nat) (buffer : string) : inner :=
  match fuel with
  | O => InnerDone buffer
  | S fuel' =>
      match Py.split1 NLNL buffer with
      | None => InnerDone buffer
      | Some (event_str, buffer') =>
          match SSEParser._parse_event event_str with
          | None => events_loop fuel' buffer'
          | Some event =>
              match _process_event event with
              | inr e => InnerRaise e buffer'
              | inl (Some chunk) => InnerYield chunk buffer'
              | inl None => events_loop fuel' buffer'
              end
          end
      end
  end.

(** What [response.iter_lines()] still has to give: lines, or an
    exception it raises. *)
Definition transport : Type := list (string + exn).

(** The body of the [try], from some point on, until it next leaves the
    generator or ends. *)
Inductive body : Type :=
  | BodyYield (chunk : Chunk) (buffer : string) (rest : transport)
  | BodyRaise (e : exn) (buffer : string) (rest : transport)
  | BodyDone (buffer : string).

(** From the head of [for line in self.response.iter_lines()]. *)
Fixpoint lines_loop (lines : transport) (buffer : string) : body :=
  match lines with
  | [] => BodyDone buffer
  | inr e :: rest => BodyRaise e buffer rest
  | inl line :: rest =>
      if (line =? "")%string then lines_loop rest buffer
      else
        let buffer := (buffer ++ (line ++ NLNL))%string in
        match events_loop (String.length buffer) buffer with
        | InnerYield chunk buffer' => BodyYield chunk buffer' rest
        | InnerRaise e buffer' => BodyRaise e buffer' rest
        | InnerDone buffer' => lines_loop rest buffer'
        end
  end.

(** From just after a [yield chunk]: the inner loop goes on with the
    buffer, then the outer loop with the lines. *)
Definition resume (lines : transport) (buffer : string) : body :=
  match events_loop (String.length buffer) buffer with
  | InnerYield chunk buffer' => BodyYield chunk buffer' lines
  | InnerRaise e buffer' => BodyRaise e buffer' lines
  | InnerDone buffer' => lines_loop lines buffer'
  end.

Inductive phase : Type := Created | Suspended | Finished.

(** A generator object of [__iter__] with what it can reach. *)
Record generator : Type := Gen {
  gen_phase : phase;
  gen_lines : transport;     (* what is left of response.iter_lines() *)
  gen_buffer : string;       (* self.parser.buffer *)
  gen_closes : nat           (* calls of response.close() so far *)
}.

(** [iter(StreamingResponse(response))] *)
Definition start (lines : transport) : generator := Gen Created lines "" 0.

Inductive outcome : Type :=
  | Yield (chunk : Chunk)
  | StopIteration
  | Raise (e : exn).

(** Leaving the [try] statement: [except Exception] turns an exception
    into a [StreamingError]; [finally] closes the response. *)
Definition leave (closes : nat) (b : body) : outcome * generator :=
  match b with
  | BodyYield chunk buffer rest =>
      (Yield chunk, Gen Suspended rest buffer closes)
  | BodyRaise e buffer rest =>
      (Raise (Exn StreamingError ("Error during streaming: " ++ exn_str e)),
       Gen Finished rest buffer (S closes))
  | BodyDone buffer =>
      (StopIteration, Gen Finished [] buffer (S closes))
  end.

(** [next(g)] *)
Definition next (g : generator) : outcome * generator :=
  match gen_phase g with
  | Created => leave (gen_closes g) (lines_loop (gen_lines g) (gen_buffer g))
  | Suspended => leave (gen_closes g) (resume (gen_lines g) (gen_buffer g))
  | Finished => (StopIteration, g)
  end.

(** [g.close()], also what happens when a suspended generator is
    finalized: [GeneratorExit] is raised at the [yield]; it is not an
    [Exception], so only [finally] runs.  A generator that never ran has
    no frame to unwind. *)
Definition close (g : generator) : generator :=
  match gen_phase g with
  | Created => Gen Finished (gen_lines g) (gen_buffer g) (gen_closes g)
  | Suspended => Gen Finished (gen_lines g) (gen_buffer g) (S (gen_closes g))
  | Finished => g
  end.

Definition is_finished (g : generator) : bool :=
  match gen_phase g with Finished => true | _ => false end.

(** The state of a generator that has been advanced at least once: not
    yet closed while suspended, closed once when finished. *)
Definition started (g : generator) : Prop :=
  match gen_phase g with
  | Created => False
  | Suspended => gen_closes g = 0
  | Finished => gen_closes g = 1
  end.

(** What a consumer does with the generator. *)
Inductive op : Type := Next | Close.

Definition apply (g : generator) (o : op) : generator :=
  match o with
  | Next => snd (next g)
  | Close => close g
  end.

Definition run (ops : list op) (g : generator) : generator :=
  fold_left apply ops g.

(** *** The generator run to its end *)

(** The inner loop run to its end: the chunks yielded, then the exception
    let out or the buffer left. *)
Fixpoint events_all (fuel : nat) (buffer : string) : list Chunk * (exn + string) :=
  match fuel with
  | O => ([], inr buffer)
  | S fuel' =>
      match Py.split1 NLNL buffer with
      | None => ([], inr buffer)
      | Some (event_str, buffer') =>
          match SSEParser._parse_event event_str with
          | None => events_all fuel' buffer'
          | Some event =>
              match _process_event event with
              | inr e => ([], inl e)
              | inl (Some chunk) =>
                  let (chunks, r) := events_all fuel' buffer' in
                  (chunk :: chunks, r)
              | inl None => events_all fuel' buffer'
              end
          end
      end
  end.

(** The outer loop run to its end. *)
Fixpoint lines_all (lines : transport) (buffer : string) : list Chunk * option exn :=
  match lines with
  | [] => ([], None)
  | inr e :: _ => ([], Some e)
  | inl line :: rest =>
      if (line =? "")%string then lines_all rest buffer
      else
        let buffer := (buffer ++ (line ++ NLNL))%string in
        match events_all (String.length buffer) buffer with
        | (chunks, inl e) => (chunks, Some e)
        | (chunks, inr buffer') =>
            let (chunks', r) := lines_all rest buffer' in
            (chunks ++ chunks', r)
        end
  end.

(** [for chunk in StreamingResponse(response)] pulled to the end: the
    chunks received, the exception that ended the loop if any, and how
    often the response was closed. *)
Definition finish (r : list Chunk * option exn) : list Chunk * option exn * nat :=
  match r with
  | (chunks, Some e) =>
      (chunks, Some (Exn StreamingError ("Error during streaming: " ++ exn_str e)), 1)
  | (chunks, None) => (chunks, None, 1)
  end.

Definition iterate (lines : transport) : list Chunk * option exn * nat :=
  finish (lines_all lines "").

(** From just after a [yield chunk] to the end. *)
Definition resume_all (lines : transport) (buffer : string) : list Chunk * option exn :=
  match events_all (String.length buffer) buffer with
  | (chunks, inl e) => (chunks, Some e)
  | (chunks, inr buffer') =>
      let (chunks', r) := lines_all lines buffer' in
      (chunks ++ chunks', r)
  end.

(** The generator pulled with [next] until it stops or raises, at most
    [fuel] chunks long: the chunks, the exception, the closes. *)
Fixpoint drain (fuel : nat) (g : generator) : list Chunk * option exn * nat :=
  match fuel with
  | O => ([], None, gen_closes g)
  | S fuel' =>
      match next g with
      | (Yield chunk, g') =>
          let '(chunks, r, n) := drain fuel' g' in (chunk :: chunks, r, n)
      | (StopIteration, g') => ([], None, gen_closes g')
      | (Raise e, g') => ([], Some e, gen_closes g')
      end
  end.

(** The frame is a [result] or a [token] event. *)
Definition is_chunk_event (event : SSEEvent.t) : bool :=
  opt_is (SSEEvent.event event) "result" || opt_is (SSEEvent.event event) "token".

(** The chunk a [result] or [token] frame stands for, as a list: empty
    for any other frame. *)
Definition chunk_of (event : SSEEvent.t) : list Chunk :=
  if is_chunk_event event then
    match SSEEvent.data event with
    | Some text =>
        if (text =? "")%string then []
        else
          match json_loads text with
          | inl data =>
              match ChatCompletionChunk data with
              | inl chunk => [chunk]
              | inr _ => []
              end
          | inr _ => []
          end
    | None => []
    end
  else [].

(** *** Frames *)

(** The frames the parser hands to the decoder when every line is
    parsed, in order. *)
Fixpoint frames (lines : list string) (buffer : string) : list SSEEvent.t :=
  match lines with
  | [] => []
  | line :: rest =>
      if (line =? "")%string then frames rest buffer
      else
        let (events, buffer') := SSEParser.parse buffer (line ++ NLNL) in
        events ++ frames rest buffer'
  end.

(** The decoder over a list of frames: the chunks, and the exception at
    which it stops. *)
Fixpoint decode (events : list SSEEvent.t) : list Chunk * option exn :=
  match events with
  | [] => ([], None)
  | event :: rest =>
      match _process_event event with
      | inr e => ([], Some e)
      | inl None => decode rest
      | inl (Some chunk) =>
          let (chunks, r) := decode rest in (chunk :: chunks, r)
      end
  end.

End Decoder.

Arguments InnerYield {_} _ _.
Arguments InnerRaise {_} _ _.
Arguments InnerDone {_} _.
Arguments BodyYield {_} _ _ _.
Arguments BodyRaise {_} _ _ _.
Arguments BodyDone {_} _.
Arguments Yield {_} _.
Arguments StopIteration {_}.
Arguments Raise {_} _.

(** *** The error body of the specification's example *)

Definition DQ : string := String (ascii_of_nat 34) EmptyString.
Definition quoted (s : string) : string := (DQ ++ s ++ DQ)%string.

(** The text [{"status":{"code":"42901","message":"rate limited"}}],
    [quoted s] being [s] between double quotes. *)
Definition rate_limited_body : string :=
  ("{" ++ quoted "status" ++ ":{" ++ quoted "code" ++ ":" ++ quoted "42901"
   ++ "," ++ quoted "message" ++ ":" ++ quoted "rate limited" ++ "}}")%string.

Definition rate_limited_json : json :=
  JObject [("status", JObject [("code", JString "42901");
                               ("message", JString "rate limited")])].

(** [json.loads] on the texts of the example: the body above, the empty
    object, and a decode error on any other text. *)
Definition example_loads (text : string) : json + string :=
  if (text =? rate_limited_body)%string then inl rate_limited_json
  else if (text =? "{}")%string then inl (JObject [])
  else inr "Expecting value: line 1 column 1 (char 0)".

(* ================================================================== *)
(** ** utils.py: [retry_with_backoff] *)
(* ================================================================== *)

(** What [retry_with_backoff] does that can be seen from outside, in the
    order it does it: a call of [func], a [time.sleep(delay)]. *)
Inductive effect : Type :=
  | Call
  | Sleep (delay : float).

(** How a call of the driver fails: with an exception object that [func]
    raised, or with the [TypeError] of [raise None]. *)
Inductive failure (E : Type) : Type :=
  | Propagate (e : E)
  | RaiseNone.
Arguments Propagate {E} e.
Arguments RaiseNone {E}.

(** [min(a, b)] on floats: [b] when [b < a], else [a]. *)
Definition fmin (a b : float) : float := if (b <? a)%float then b else a.

Section Retry.

(** [func] is any callable: [W] is whatever state it reads and writes,
    [A] its results, [E] the exceptions it raises (instances of
    [Exception]). *)
Variables W A E : Type.
Variable func : W -> (A + E) * W.

Section Loop.
Variable max_retries : Z.
Variable backoff_factor max_delay : float.

(** The [for attempt in range(max_retries)] loop with [iterations]
    turns left, and the [raise last_exception] after it. *)
Fixpoint retry_loop (iterations : nat) (attempt : Z) (delay : float)
         (last_exception : option E) (w : W)
  : (A + failure E) * W * list effect :=
  match iterations with
  | O =>
      (inr (match last_exception with
            | Some e => Propagate e
            | None => RaiseNone
            end), w, [])
  | S iterations' =>
      match func w with
      | (inl a, w') => (inl a, w', [Call])
      | (inr e, w') =>
          if (attempt <? max_retries - 1)%Z then
            let '(r, w'', trace) :=
              retry_loop iterations' (attempt + 1)%Z
                         (fmin (delay * backoff_factor)%float max_delay)
                         (Some e) w' in
            (r, w'', Call :: Sleep delay :: trace)
          else
            let '(r, w'', trace) :=
              retry_loop iterations' (attempt + 1)%Z delay (Some e) w' in
            (r, w'', Call :: trace)
      end
  end.
End Loop.

(** [retry_with_backoff(func, max_retries, initial_delay, backoff_factor,
    max_delay)] *)
Definition retry_with_backoff (max_retries : Z)
           (initial_delay backoff_factor max_delay : float) (w : W)
  : (A + failure E) * W * list effect :=
  retry_loop max_retries backoff_factor max_delay
             (Z.to_nat max_retries) 0%Z initial_delay None w.

(** The end of [ChatCompletions._create_sync] (and of
    [Embeddings.create]): [func] is [_make_request], [max_retries] is
    [self.max_retries], and the driver is called with its default
    delays. *)
Definition _create_sync (max_retries : Z) (w : W)
  : (A + failure E) * W * list effect :=
  if (max_retries >? 0)%Z then
    retry_with_backoff max_retries 1.0%float 2.0%float 60.0%float w
  else
    match func w with
    | (inl a, w') => (inl a, w', [Call])
    | (inr e, w') => (inr (Propagate e), w', [Call])
    end.

(** [func] called again and again from [w]: the state after [n] calls
    and what call number [n] (from 0) gives. *)
Fixpoint state_after (n : nat) (w : W) : W :=
  match n with
  | O => w
  | S n' => state_after n' (snd (func w))
  end.

Definition nth_call (n : nat) (w : W) : A + E := fst (func (state_after n w)).

End Retry.

Arguments retry_with_backoff {W A E} func max_retries initial_delay backoff_factor max_delay w.
Arguments _create_sync {W A E} func max_retries w.
Arguments state_after {W A E} func n w.
Arguments nth_call {W A E} func n w.

(** The calls of [func] in a trace, the sleeps in a trace. *)
Definition calls (trace : list effect) : nat :=
  List.length (filter (fun x => match x with Call => true | Sleep _ => false end) trace).

Fixpoint sleeps (trace : list effect) : list float :=
  match trace with
  | [] => []
  | Call :: t => sleeps t
  | Sleep d :: t => d :: sleeps t
  end.

(** The delay before retry number [i] (from 0) with the default settings:
    1.0 doubled [i] times, at most 60.0. *)
Definition float_of_Z (z : Z) : float := PrimFloat.of_uint63 (Uint63.of_Z z).

Definition backoff_delay (i : nat) : float :=
  float_of_Z (Z.min (2 ^ Z.of_nat i) 60).

(** [k] calls with the backoff sleeps between them. *)
Fixpoint schedule_from (i : nat) (k : nat) : list effect :=
  match k with
  | O => []
  | S k' => Sleep (backoff_delay i) :: Call :: schedule_from (S i) k'
  end.

Definition schedule (k : nat) : list effect :=
  match k with
  | O => []
  | S k' => Call :: schedule_from 0 k'
  end.

(* ================================================================== *)
(** ** utils.py: [validate_model_capability] and [get_max_tokens] *)
(* ================================================================== *)

Definition capabilities : list (string * list string) :=
  [ ("HCX-005", ["vision"; "function_calling"]);
    ("HCX-007", ["thinking"; "structured_output"; "function_calling"]);
    ("HCX-DASH-002", ["function_calling"]) ].

(** [x in l] *)
Definition mem (x : string) (l : list string) : bool :=
  existsb (fun y => (y =? x)%string) l.

Definition validate_model_capability (model feature : string) : unit + exn :=
  let model_caps := get_default capabilities model [] in
  if (feature =? "thinking")%string && negb (mem "thinking" model_caps) then
    inr (Exn ValueError ("Model " ++ model ++ " does not support thinking mode"))
  else if (feature =? "vision")%string && negb (mem "vision" model_caps) then
    inr (Exn ValueError ("Model " ++ model ++ " does not support image input"))
  else if (feature =? "structured_output")%string
          && negb (mem "structured_output" model_caps) then
    inr (Exn ValueError ("Model " ++ model ++ " does not support structured output"))
  else if (feature =? "function_calling")%string
          && negb (mem "function_calling" model_caps) then
    inr (Exn ValueError ("Model " ++ model ++ " does not support function calling"))
  else inl tt.

(** The feature tags the validator knows. *)
Definition known_features : list string :=
  ["thinking"; "vision"; "structured_output"; "function_calling"].

Definition effort_defaults : list (string * Z) :=
  [ ("none", 512); ("low", 5120); ("medium", 10240); ("high", 20480) ]%Z.

Definition model_defaults : list (string * Z) :=
  [ ("HCX-005", 4096); ("HCX-007", 4096); ("HCX-DASH-002", 4096) ]%Z.

Definition get_max_tokens (model : string) (thinking_effort : option string) : Z :=
  if (model =? "HCX-007")%string && Py.truthy thinking_effort then
    get_default effort_defaults
                (match thinking_effort with Some s => s | None => "" end) 5120%Z
  else get_default model_defaults model 4096%Z.

(* ================================================================== *)
(** ** utils.py: [prepare_message_content] *)
(* ================================================================== *)

(** The Python values a message content is made of. *)
Inductive pyval : Type :=
  | PNone
  | PBool (b : bool)
  | PInt (n : Z)
  | PStr (s : string)
  | PList (items : list pyval)
  | PDict (members : list (string * pyval)).

Module PyVal.
Definition type_name (v : pyval) : string :=
  match v with
  | PNone => "NoneType" | PBool _ => "bool" | PInt _ => "int"
  | PStr _ => "str" | PList _ => "list" | PDict _ => "dict"
  end.

(** [v[key]] for a string [key] *)
Definition getitem (v : pyval) (key : string) : pyval + exn :=
  match v with
  | PDict d =>
      match assoc key d with
      | Some x => inl x
      | None => inr (Exn KeyError ("'" ++ key ++ "'"))
      end
  | PStr _ => inr (Exn TypeError "string indices must be integers, not 'str'")
  | PList _ => inr (Exn TypeError "list indices must be integers or slices, not str")
  | _ => inr (Exn TypeError ("'" ++ type_name v ++ "' object is not subscriptable"))
  end.

(** [d.get("type") == tag] *)
Definition type_is (d : list (string * pyval)) (tag : string) : bool :=
  match assoc "type" d with
  | Some (PStr s) => (s =? tag)%string
  | _ => false
  end.

(** [key in d] *)
Definition has_key (d : list (string * pyval)) (key : string) : bool :=
  match assoc key d with Some _ => true | None => false end.
End PyVal.

(** One turn of [for item in content]: the item appended to
    [prepared_content], if one is. *)
Definition prepare_item (item : pyval) : option pyval + exn :=
  match item with
  | PDict d =>
      if PyVal.type_is d "text" then
        match PyVal.getitem item "text" with
        | inr e => inr e
        | inl text => inl (Some (PDict [("type", PStr "text"); ("text", text)]))
        end
      else if PyVal.type_is d "image_url" then
        if PyVal.has_key d "image_url" then
          match PyVal.getitem item "image_url" with
          | inr e => inr e
          | inl src =>
              match PyVal.getitem src "url" with
              | inr e => inr e
              | inl url =>
                  inl (Some (PDict [("type", PStr "image_url");
                                    ("imageUrl", PDict [("url", url)])]))
              end
          end
        else if PyVal.has_key d "data_uri" then
          match PyVal.getitem item "data_uri" with
          | inr e => inr e
          | inl src =>
              match PyVal.getitem src "data" with
              | inr e => inr e
              | inl data =>
                  inl (Some (PDict [("type", PStr "image_url");
                                    ("dataUri", PDict [("data", data)])]))
              end
          end
        else inl None
      else inl None
  | _ => inl None
  end.

Fixpoint prepare_items (items : list pyval) : list pyval + exn :=
  match items with
  | [] => inl []
  | item :: rest =>
      match prepare_item item with
      | inr e => inr e
      | inl appended =>
          match prepare_items rest with
          | inr e => inr e
          | inl prepared =>
              inl (match appended with
                   | Some x => x :: prepared
                   | None => prepared
                   end)
          end
      end
  end.

Definition prepare_message_content (content : pyval) : pyval + exn :=
  match content with
  | PStr _ => inl content
  | PList items =>
      match prepare_items items with
      | inl prepared => inl (PList prepared)
      | inr e => inr e
      end
  | PDict d =>
      (* iterating a dict gives its keys, none of which is a dict *)
      inl (PList [])
  | _ => inr (Exn TypeError ("'" ++ PyVal.type_name content ++ "' object is not iterable"))
  end.

(** The items the loop passes over: not a dict tagged [text] or
    [image_url], or an [image_url] item with neither source key. *)
Definition dropped (item : pyval) : bool :=
  match item with
  | PDict d =>
      if PyVal.type_is d "text" then false
      else if PyVal.type_is d "image_url" then
        negb (PyVal.has_key d "image_url") && negb (PyVal.has_key d "data_uri")
      else true
  | _ => true
  end.

(** The other items. *)
Definition kept (item : pyval) : bool := negb (dropped item).

(* ================================================================== *)
(** ** completions.py and models.py: the token-limit fields of a request *)
(* ================================================================== *)

(** [ThinkingEffort = Literal["none", "low", "medium", "high"]] *)
Inductive ThinkingEffort : Type := EffortNone | EffortLow | EffortMedium | EffortHigh.

Definition effort_name (e : ThinkingEffort) : string :=
  match e with
  | EffortNone => "none" | EffortLow => "low"
  | EffortMedium => "medium" | EffortHigh => "high"
  end.

Definition parse_effort (s : string) : option ThinkingEffort :=
  if (s =? "none")%string then Some EffortNone
  else if (s =? "low")%string then Some EffortLow
  else if (s =? "medium")%string then Some EffortMedium
  else if (s =? "high")%string then Some EffortHigh
  else None.

(** The [thinking] argument of [create]: a [ThinkingConfig] object or a
    dict. *)
Inductive thinking_arg : Type :=
  | ThinkingObject (effort : ThinkingEffort)
  | ThinkingDict (d : list (string * string)).

(** [if thinking:] *)
Definition thinking_truthy (thinking : option thinking_arg) : bool :=
  match thinking with
  | None => false
  | Some (ThinkingObject _) => true
  | Some (ThinkingDict d) => match d with [] => false | _ => true end
  end.

(** [thinking.get("effort", "low") if isinstance(thinking, dict) else
    thinking.effort] *)
Definition thinking_effort (thinking : thinking_arg) : string :=
  match thinking with
  | ThinkingObject e => effort_name e
  | ThinkingDict d => get_default d "effort" "low"
  end.

(** The static effort-to-budget table, as a function of the effort. *)
Definition effort_budget (e : ThinkingEffort) : Z :=
  match e with
  | EffortNone => 512
  | EffortLow => 5120
  | EffortMedium => 10240
  | EffortHigh => 20480
  end%Z.

(** The completion-token limit as the specification words it, from three
    sources: an explicit completion-token value, else the table at the
    thinking effort supplied, else 2048. *)
Definition spec_token_limit (max_completion_tokens : option Z)
           (effort : option ThinkingEffort) : Z :=
  match max_completion_tokens with
  | Some v => v
  | None =>
      match effort with
      | Some e => effort_budget e
      | None => 2048%Z
      end
  end.

Module ChatCompletionRequest.

(** The keys of [request_data] that carry the token limits and the
    thinking configuration. *)
Record data : Type := Data {
  maxTokens : option Z;
  maxCompletionTokens : option Z;
  thinking_data : option (list (string * string))
}.

(** The same fields of a validated [ChatCompletionRequest]. *)
Record t : Type := mk {
  max_tokens : option Z;
  max_completion_tokens : option Z;
  thinking : option ThinkingEffort
}.

(** [Field(..., ge=1)] *)
Definition ge1 (v : option Z) : bool :=
  match v with Some n => (1 <=? n)%Z | None => true end.

(** [validate_token_params] on [max_completion_tokens]: [true] when it
    raises.  [info.data] holds [max_tokens] once that field is valid. *)
Definition validate_token_params (max_tokens max_completion_tokens : option Z) : bool :=
  match max_completion_tokens, max_tokens with
  | Some _, Some _ => true
  | _, _ => false
  end.

(** [ThinkingConfig] from a dict: [effort] is one of the four literals,
    ["low"] when the key is missing; other keys are ignored. *)
Definition validate_thinking (d : list (string * string)) : option ThinkingEffort :=
  match assoc "effort" d with
  | None => Some EffortLow
  | Some s => parse_effort s
  end.

Definition invalid : exn :=
  Exn ValidationError "validation error for ChatCompletionRequest".

(** The constructor on these fields. *)
Definition new (rd : data) : t + exn :=
  if negb (ge1 (maxTokens rd)) then inr invalid
  else if negb (ge1 (maxCompletionTokens rd)) then inr invalid
  else if validate_token_params (maxTokens rd) (maxCompletionTokens rd) then inr invalid
  else match thinking_data rd with
       | None => inl (mk (maxTokens rd) (maxCompletionTokens rd) None)
       | Some d =>
           match validate_thinking d with
           | Some e => inl (mk (maxTokens rd) (maxCompletionTokens rd) (Some e))
           | None => inr invalid
           end
       end.

End ChatCompletionRequest.

Module ChatCompletions.

(** The two token keys of [request_data] as [create] sets them
    ([# Handle token parameters based on model]). *)
Definition token_params (model : string) (max_tokens max_completion_tokens : option Z)
           (thinking : option thinking_arg) : option Z * option Z :=
  if (model =? "HCX-007")%string then
    (None,
     Some (match max_completion_tokens with
           | Some v => v
           | None =>
               match max_tokens with
               | Some v => v
               | None =>
                   if thinking_truthy thinking then
                     get_max_tokens model
                       (match thinking with
                        | Some t => Some (thinking_effort t)
                        | None => None
                        end)
                   else 2048%Z
               end
           end))
  else
    (match max_tokens with
     | Some v => Some v
     | None => max_completion_tokens
     end, None).

(** [create], for a call that gives [model], [messages], and any of
    [max_tokens], [max_completion_tokens] and [thinking], and leaves the
    other options out; the messages are taken to pass validation.  The
    result is the request built, which [create] then sends. *)
Definition create (model : string) (max_tokens max_completion_tokens : option Z)
           (thinking : option thinking_arg) : ChatCompletionRequest.t + exn :=
  match (if thinking_truthy thinking
         then validate_model_capability model "thinking" else inl tt) with
  | inr e => inr e
  | inl _ =>
      let (mt, mct) := token_params model max_tokens max_completion_tokens thinking in
      ChatCompletionRequest.new
        (ChatCompletionRequest.Data mt mct
           (match thinking with
            | None => None
            | Some (ThinkingDict d) => Some d
            | Some (ThinkingObject e) => Some [("effort", effort_name e)]
            end))
  end.

End ChatCompletions.

(* ================================================================== *)
(** ** exceptions.py: [HyperClovaError] and [raise_for_status_code] *)
(* ================================================================== *)

(** [str(n)] for an [int]. *)
Definition str_of_int (n : Z) : string := NilZero.string_of_int (Z.to_int n).

(** [d[key] = value] on a dict kept as the list of its items, in
    insertion order. *)
Fixpoint dict_set {V : Type} (d : list (string * V)) (key : string) (value : V)
  : list (string * V) :=
  match d with
  | [] => [(key, value)]
  | (k, v) :: d' =>
      if (k =? key)%string then (k, value) :: d'
      else (k, v) :: dict_set d' key value
  end.

Module Exceptions.

(** The classes of [exceptions.py] that [raise_for_status_code] and the
    client raise. *)
Inductive error_class : Type :=
  | HyperClovaError
  | AuthenticationError
  | InvalidRequestError
  | RateLimitError
  | ServerError.

(** An instance: its class and the four attributes [__init__] sets. *)
Record t : Type := mk {
  cls : error_class;
  message : json;
  code : option json;
  status_code : option Z;
  response : option json
}.

End Exceptions.

Section StatusCode.

Variable py_str : json -> string.

(** [raise_for_status_code].  It never returns: [inl] is the
    [HyperClovaError] it raises, [inr] another exception that gets out of
    it (a [get] on something that is not a dict). *)
Definition raise_for_status_code (status_code : Z) (response : json)
  : Exceptions.t + exn :=
  match JSON.get response "status" (JObject []) with
  | inr e => inr e
  | inl status =>
      match JSON.get status "message" (JString "Unknown error") with
      | inr e => inr e
      | inl message =>
          match JSON.get response "status" (JObject []) with
          | inr e => inr e
          | inl status' =>
              match JSON.get status' "code" (JString (str_of_int status_code)) with
              | inr e => inr e
              | inl code =>
                  let raise cls msg :=
                    inl (Exceptions.mk cls msg (Some code) (Some status_code)
                                       (Some response)) in
                  if (status_code =? 401)%Z then
                    raise Exceptions.AuthenticationError
                          (JString "Authentication failed. Invalid API key.")
                  else if (status_code =? 403)%Z then
                    raise Exceptions.AuthenticationError
                          (JString "Access forbidden. Check your API key permissions.")
                  else if (status_code =? 404)%Z then
                    raise Exceptions.InvalidRequestError (JString "Resource not found.")
                  else if (status_code =? 429)%Z then
                    raise Exceptions.RateLimitError (JString "Rate limit exceeded.")
                  else if ((400 <=? status_code) && (status_code <? 500))%Z then
                    raise Exceptions.InvalidRequestError message
                  else if ((500 <=? status_code) && (status_code <? 600))%Z then
                    raise Exceptions.ServerError
                          (JString ("Server error: " ++ format py_str message))
                  else
                    raise Exceptions.HyperClovaError
                          (JString ("Unexpected status code: " ++ str_of_int status_code))
              end
          end
      end
  end.

End StatusCode.

(* ================================================================== *)
(** ** utils.py: headers, environment, image URLs *)
(* ================================================================== *)

Definition get_headers (api_key : string) (request_id : option string)
           (content_type : string) (accept : option string)
  : list (string * string) :=
  let headers :=
    [ ("Authorization", ("Bearer " ++ api_key)%string);
      ("Content-Type", content_type) ] in
  let headers :=
    match request_id with
    | Some v =>
        if Py.truthy request_id
        then dict_set headers "X-NCP-CLOVASTUDIO-REQUEST-ID" v else headers
    | None => headers
    end in
  match accept with
  | Some v => if Py.truthy accept then dict_set headers "Accept" v else headers
  | None => headers
  end.

(** [os.environ] as the list of its items. *)
Definition environ : Type := list (string * string).

Definition get_api_key (env : environ) : option string :=
  assoc "HYPERCLOVA_API_KEY" env.

Definition get_base_url (env : environ) : string :=
  get_default env "HYPERCLOVA_BASE_URL" "https://clovastudio.stream.ntruss.com".

(** [c.lower()] for one character below 256. *)
Definition lower_char (c : ascii) : ascii :=
  let n := nat_of_ascii c in
  if (((65 <=? n) && (n <=? 90)) || ((192 <=? n) && (n <=? 214))
      || ((216 <=? n) && (n <=? 222)))%nat
  then ascii_of_nat (n + 32) else c.

(** [s.lower()] *)
Fixpoint lower (s : string) : string :=
  match s with
  | EmptyString => EmptyString
  | String c s' => String (lower_char c) (lower s')
  end.

(** [s.endswith(suffix)] *)
Definition endswith (s suffix : string) : bool :=
  (String.length suffix <=? String.length s)%nat
  && (Py.drop (String.length s - String.length suffix) s =? suffix)%string.

Definition image_extensions : list string :=
  [".png"; ".jpg"; ".jpeg"; ".webp"; ".bmp"].

(** [url.lower().endswith(image_extensions)] *)
Definition is_image_url (url : string) : bool :=
  existsb (endswith (lower url)) image_extensions.

(* ================================================================== *)
(** ** client.py: [HyperClova.__init__] *)
(* ================================================================== *)

Module HyperClova.

(** [a or b] on optional strings. *)
Definition or_else (a b : option string) : option string :=
  if Py.truthy a then a else b.

Definition no_api_key : Exceptions.t :=
  Exceptions.mk Exceptions.AuthenticationError
    (JString ("No API key provided. Please set HYPERCLOVA_API_KEY environment "
              ++ "variable or pass api_key parameter."))
    None None None.

(** [__init__]: the [api_key] and [base_url] the client keeps, or the
    [AuthenticationError] it raises. *)
Definition init (api_key base_url : option string) (env : environ)
  : (string * string) + Exceptions.t :=
  match or_else api_key (get_api_key env) with
  | None => inr no_api_key
  | Some key =>
      if (key =? "")%string then inr no_api_key
      else
        match or_else base_url (Some (get_base_url env)) with
        | Some url => inl (key, url)
        | None => inl (key, get_base_url env)
        end
  end.

End HyperClova.

(* ================================================================== *)
(** ** completions.py: the message part of [create] *)
(* ================================================================== *)

(** [isinstance(item, dict) and item.get("type") == "image_url"] *)
Definition is_image_item (item : pyval) : bool :=
  match item with
  | PDict d => PyVal.type_is d "image_url"
  | _ => false
  end.

(** The [content] the image check looks at: [msg.get("content", "")] for
    a dict; a value of another kind here has no [content] attribute. *)
Definition checked_content (msg : pyval) : pyval :=
  match msg with
  | PDict d => get_default d "content" (PStr "")
  | _ => PStr ""
  end.

(** The inner loop finds an image item. *)
Definition content_has_image (content : pyval) : bool :=
  match content with
  | PList items => existsb is_image_item items
  | _ => false
  end.

(** [# Check for image content in messages] *)
Fixpoint check_vision (model : string) (messages : list pyval) : unit + exn :=
  match messages with
  | [] => inl tt
  | msg :: rest =>
      if content_has_image (checked_content msg) then
        match validate_model_capability model "vision" with
        | inr e => inr e
        | inl _ => check_vision model rest
        end
      else check_vision model rest
  end.

(** One turn of [# Prepare messages]. *)
Definition prepare_message (msg : pyval) : pyval + exn :=
  match msg with
  | PDict d =>
      match PyVal.getitem msg "role" with
      | inr e => inr e
      | inl role =>
          match PyVal.getitem msg "content" with
          | inr e => inr e
          | inl content =>
              match prepare_message_content content with
              | inr e => inr e
              | inl prepared =>
                  let m := [("role", role); ("content", prepared)] in
                  let m := match assoc "tool_calls" d with
                           | Some v => dict_set m "toolCalls" v
                           | None => m
                           end in
                  let m := match assoc "tool_call_id" d with
                           | Some v => dict_set m "toolCallId" v
                           | None => m
                           end in
                  inl (PDict m)
              end
          end
      end
  | _ =>
      inr (Exn AttributeError
             ("'" ++ PyVal.type_name msg ++ "' object has no attribute 'model_dump'"))
  end.

Fixpoint prepare_messages (messages : list pyval) : list pyval + exn :=
  match messages with
  | [] => inl []
  | msg :: rest =>
      match prepare_message msg with
      | inr e => inr e
      | inl m =>
          match prepare_messages rest with
          | inr e => inr e
          | inl ms => inl (m :: ms)
          end
      end
  end.

(** The image check, then the preparation, as [create] runs them on
    messages given as dicts. *)
Definition create_messages (model : string) (messages : list pyval)
  : list pyval + exn :=
  match check_vision model messages with
  | inr e => inr e
  | inl _ => prepare_messages messages
  end.

(** An item tagged [text]. *)
Definition is_text_item (item : pyval) : bool :=
  match item with
  | PDict d => PyVal.type_is d "text"
  | _ => false
  end.

(** The three forms of an item of a prepared list. *)
Definition prepared_form (x : pyval) : Prop :=
  (exists v, x = PDict [("type", PStr "text"); ("text", v)])
  \/ (exists v, x = PDict [("type", PStr "image_url");
                           ("imageUrl", PDict [("url", v)])])
  \/ (exists v, x = PDict [("type", PStr "image_url");
                           ("dataUri", PDict [("data", v)])]).

(* ================================================================== *)
(** ** embeddings.py: [Embeddings.create] and [create_batch] *)
(* ================================================================== *)

(** How [Embeddings.create] fails: [EmbeddingRequest(text=text)] is
    refused, or the request fails. *)
Inductive embedding_failure (E : Type) : Type :=
  | InvalidText
  | RequestFailed (f : failure E).
Arguments InvalidText {E}.
Arguments RequestFailed {E} f.

Section Embeddings.

(** [_make_request] for a text and a request id: any callable, as [func]
    above. *)
Variables W A E : Type.
Variable _make_request : string -> option string -> W -> (A + E) * W.

(** [Embeddings.create] *)
Definition Embeddings_create (max_retries : Z) (text : string)
           (request_id : option string) (w : W)
  : (A + embedding_failure E) * W * list effect :=
  if (8192 <? Z.of_nat (String.length text))%Z then (inr InvalidText, w, [])
  else
    match _create_sync (_make_request text request_id) max_retries w with
    | (inl a, w', trace) => (inl a, w', trace)
    | (inr f, w', trace) => (inr (RequestFailed f), w', trace)
    end.

(** [f"{request_id}-{i}" if request_id else None] *)
Definition batch_request_id (request_id : option string) (i : nat) : option string :=
  match request_id with
  | Some v =>
      if Py.truthy request_id
      then Some (v ++ "-" ++ str_of_int (Z.of_nat i))%string else None
  | None => None
  end.

(** [create_batch] from index [i] on: the results or the failure that
    ends the loop, the state, and the calls of [create] made, each with
    its text and request id. *)
Fixpoint create_batch_from (i : nat) (max_retries : Z) (texts : list string)
         (request_id : option string) (w : W)
  : (list A + embedding_failure E) * W * list (string * option string) :=
  match texts with
  | [] => (inl [], w, [])
  | text :: rest =>
      let req_id := batch_request_id request_id i in
      match Embeddings_create max_retries text req_id w with
      | (inr f, w', _) => (inr f, w', [(text, req_id)])
      | (inl a, w', _) =>
          let '(r, w'', made) :=
            create_batch_from (S i) max_retries rest request_id w' in
          (match r with
           | inl results => inl (a :: results)
           | inr f => inr f
           end, w'', (text, req_id) :: made)
      end
  end.

Definition create_batch (max_retries : Z) (texts : list string)
           (request_id : option string) (w : W)
  : (list A + embedding_failure E) * W * list (string * option string) :=
  create_batch_from 0 max_retries texts request_id w.

End Embeddings.

Arguments Embeddings_create {W A E} _make_request max_retries text request_id w.
Arguments create_batch_from {W A E} _make_request i max_retries texts request_id w.
Arguments create_batch {W A E} _make_request max_retries texts request_id w.

(* ================================================================== *)
(** ** utils.py: [convert_to_openai_format] *)
(* ================================================================== *)

Section Convert.

(** [str] of a JSON value that is not a string, [x // n] on a float, and
    the two readings of the clock: [int(time.time())] for the id and
    [int(time.time() * 1000)], the default of [created]. *)
Variable py_str : json -> string.
Variable float_floordiv : float -> Z -> float.
Variables now_s now_ms : Z.

(** [v // n] *)
Definition floordiv (v : json) (n : Z) : json + exn :=
  match v with
  | JInt k => inl (JInt (k / n))
  | JBool b => inl (JInt ((if b then 1 else 0) / n))
  | JFloat x => inl (JFloat (float_floordiv x n))
  | _ => inr (Exn TypeError
                ("unsupported operand type(s) for //: '" ++ JSON.type_name v
                 ++ "' and 'int'"))
  end.

(** [choices[0]["message"]] with the two optional keys, for a [message]
    that is a dict. *)
Definition openai_message (message : list (string * json)) (role content : json)
  : list (string * json) :=
  let m := [("role", role); ("content", content)] in
  let m := match assoc "toolCalls" message with
           | Some v => dict_set m "tool_calls" v
           | None => m
           end in
  match assoc "thinkingContent" message with
  | Some v => dict_set m "thinking_content" v
  | None => m
  end.

Definition convert_to_openai_format (response : json) : json + exn :=
  match JSON.get response "result" (JObject []) with
  | inr e => inr e
  | inl result =>
  match JSON.get result "message" (JObject []) with
  | inr e => inr e
  | inl message =>
  match JSON.get message "role" (JString "assistant") with
  | inr e => inr e
  | inl role =>
  match JSON.get message "content" (JString "") with
  | inr e => inr e
  | inl content =>
  match JSON.get result "finishReason" JNull with
  | inr e => inr e
  | inl finish_reason =>
  let choice_message :=
    match message with
    | JObject members => openai_message members role content
    | _ => [("role", role); ("content", content)]
    end in
  let choices :=
    JArray [JObject [("index", JInt 0);
                     ("message", JObject choice_message);
                     ("finish_reason", finish_reason)]] in
  match JSON.get result "created" (JInt now_ms) with
  | inr e => inr e
  | inl created_ms =>
  match floordiv created_ms 1000 with
  | inr e => inr e
  | inl created =>
  match JSON.get result "usage" (JObject []) with
  | inr e => inr e
  | inl usage =>
  match JSON.get usage "promptTokens" (JInt 0) with
  | inr e => inr e
  | inl prompt_tokens =>
  match JSON.get usage "completionTokens" (JInt 0) with
  | inr e => inr e
  | inl completion_tokens =>
  match JSON.get usage "totalTokens" (JInt 0) with
  | inr e => inr e
  | inl total_tokens =>
  match JSON.get result "seed" (JString "") with
  | inr e => inr e
  | inl seed =>
      inl (JObject
             [ ("id", JString ("chatcmpl-" ++ str_of_int now_s));
               ("object", JString "chat.completion");
               ("created", created);
               ("model", JString "hyperclova");
               ("choices", choices);
               ("usage", JObject [ ("prompt_tokens", prompt_tokens);
                                   ("completion_tokens", completion_tokens);
                                   ("total_tokens", total_tokens) ]);
               ("system_fingerprint", JString (format py_str seed)) ])
  end end end end end end end end end end end end.

End Convert.

(* ================================================================== *)
(** * Properties *)
(* ================================================================== *)

(** ** Strings *)

Lemma append_assoc (a b c : string) : ((a ++ b) ++ c = a ++ (b ++ c))%string.
Proof. induction a as [|x a IH]; simpl; [reflexivity | now rewrite IH]. Qed.

Lemma append_nil_r (a : string) : (a ++ "" = a)%string.
Proof. induction a as [|x a IH]; simpl; [reflexivity | now rewrite IH]. Qed.

Lemma length_append (a b : string) :
  String.length (a ++ b) = String.length a + String.length b.
Proof. induction a as [|x a IH]; simpl; [reflexivity | now rewrite IH]. Qed.

Lemma prefix_length (sep s : string) :
  prefix sep s = true -> String.length sep <= String.length s.
Proof.
  revert s; induction sep as [|x sep IH]; intros s H; simpl.
  - lia.
  - destruct s as [|y s]; simpl in H; [discriminate|].
    destruct (ascii_dec x y); [|discriminate].
    apply IH in H. simpl. lia.
Qed.

Lemma prefix_app (sep a b : string) :
  String.length sep <= String.length a ->
  prefix sep (a ++ b) = prefix sep a.
Proof.
  revert a; induction sep as [|x sep IH]; intros a H.
  - destruct a; simpl; [destruct b|]; reflexivity.
  - destruct a as [|y a]; simpl in H; [lia|].
    simpl. destruct (ascii_dec x y); [|reflexivity].
    apply IH. lia.
Qed.

Lemma drop_app (n : nat) (a b : string) :
  n <= String.length a -> (Py.drop n (a ++ b) = Py.drop n a ++ b)%string.
Proof.
  revert a; induction n as [|n IH]; intros a H; [reflexivity|].
  destruct a as [|y a]; simpl in H; [lia|].
  simpl. apply IH. lia.
Qed.

Lemma drop_length (n : nat) (s : string) :
  n <= String.length s -> String.length (Py.drop n s) = String.length s - n.
Proof.
  revert s; induction n as [|n IH]; intros s H; simpl; [lia|].
  destruct s as [|y s]; simpl in *; [lia|]. apply IH. lia.
Qed.

Lemma split1_eq (sep s : string) :
  Py.split1 sep s
  = if prefix sep s then Some (EmptyString, Py.drop (String.length sep) s)
    else match s with
         | EmptyString => None
         | String c s' =>
             match Py.split1 sep s' with
             | Some (before, after) => Some (String c before, after)
             | None => None
             end
         end.
Proof. destruct s; reflexivity. Qed.

(** A split accounts for every character. *)
Lemma split1_length (sep s before after : string) :
  Py.split1 sep s = Some (before, after) ->
  String.length s = String.length before + String.length sep + String.length after.
Proof.
  revert before after; induction s as [|c s IH]; intros before after H.
  - destruct sep; simpl in H; [|discriminate].
    injection H as <- <-. reflexivity.
  - rewrite split1_eq in H. destruct (prefix sep (String c s)) eqn:P.
    + injection H as <- <-. pose proof (prefix_length _ _ P) as L.
      rewrite drop_length by exact L.
      change (String.length "") with 0. lia.
    + destruct (Py.split1 sep s) as [[x r]|] eqn:Hs; [|discriminate].
      injection H as <- <-. specialize (IH _ _ eq_refl). simpl. lia.
Qed.

(** The leftmost occurrence of the separator stays the leftmost one when
    text is appended. *)
Lemma split1_app (sep a b before after : string) :
  Py.split1 sep a = Some (before, after) ->
  Py.split1 sep (a ++ b) = Some (before, (after ++ b)%string).
Proof.
  revert before after; induction a as [|c a IH]; intros before after H.
  - destruct sep; simpl in H; [|discriminate].
    injection H as <- <-. simpl. destruct b; reflexivity.
  - pose proof (split1_length _ _ _ _ H) as L.
    rewrite split1_eq in H. rewrite split1_eq.
    rewrite prefix_app by lia.
    destruct (prefix sep (String c a)) eqn:P.
    + injection H as <- <-. f_equal. f_equal.
      apply drop_app. apply prefix_length in P. exact P.
    + destruct (Py.split1 sep a) as [[x r]|] eqn:Hs; [|discriminate].
      injection H as <- <-. simpl. rewrite (IH _ _ eq_refl). reflexivity.
Qed.

Lemma split1_NLNL_shorter (s before after : string) :
  Py.split1 NLNL s = Some (before, after) ->
  String.length after < String.length s.
Proof. intros H. apply split1_length in H. simpl in H. lia. Qed.

(** ** The parser loop *)

(** The loop never stops for lack of fuel: any two amounts of fuel that
    cover the buffer give the same result. *)
Lemma parse_loop_fuel (n m : nat) (buffer : string) :
  String.length buffer <= n -> String.length buffer <= m ->
  SSEParser.parse_loop n buffer = SSEParser.parse_loop m buffer.
Proof.
  revert m buffer; induction n as [|n IH]; intros m buffer Hn Hm.
  - destruct buffer; simpl in Hn; [|lia].
    destruct m; reflexivity.
  - destruct m as [|m].
    + destruct buffer; simpl in Hm; [|lia]. reflexivity.
    + simpl. destruct (Py.split1 NLNL buffer) as [[x r]|] eqn:Hs; [|reflexivity].
      apply split1_NLNL_shorter in Hs.
      rewrite (IH m r) by lia. reflexivity.
Qed.

(** When the loop ends no terminator is left in the buffer. *)
Lemma parse_loop_done (n : nat) (buffer : string) :
  String.length buffer <= n ->
  Py.split1 NLNL (snd (SSEParser.parse_loop n buffer)) = None.
Proof.
  revert buffer; induction n as [|n IH]; intros buffer Hn.
  - destruct buffer; simpl in Hn; [reflexivity | lia].
  - simpl. destruct (Py.split1 NLNL buffer) as [[x r]|] eqn:Hs; [|exact Hs].
    pose proof (split1_NLNL_shorter _ _ _ Hs) as L.
    specialize (IH r ltac:(lia)).
    destruct (SSEParser.parse_loop n r) as [events final].
    destruct (SSEParser._parse_event x); exact IH.
Qed.

(** Parsing a buffer followed by more text: parse the buffer, then go on
    with what it left followed by the text. *)
Lemma parse_loop_app (n : nat) (a b : string) :
  String.length a <= n ->
  SSEParser.parse_loop (String.length (a ++ b)) (a ++ b)
  = let (events, rest) := SSEParser.parse_loop n a in
    let (events', final) :=
      SSEParser.parse_loop (String.length (rest ++ b)) (rest ++ b) in
    (events ++ events', final).
Proof.
  revert a; induction n as [|n IH]; intros a Hn.
  - destruct a; simpl in Hn; [|lia]. simpl.
    destruct (SSEParser.parse_loop (String.length b) b); reflexivity.
  - simpl. destruct (Py.split1 NLNL a) as [[x r]|] eqn:Hs.
    + pose proof (split1_NLNL_shorter _ _ _ Hs) as L.
      pose proof (split1_app _ _ b _ _ Hs) as Hab.
      pose proof (split1_NLNL_shorter _ _ _ Hab) as Lab.
      destruct (String.length (a ++ b)) as [|k] eqn:Hk; [lia|].
      simpl. rewrite Hab.
      rewrite (parse_loop_fuel k (String.length (r ++ b)) (r ++ b)) by lia.
      rewrite (IH r) by lia.
      destruct (SSEParser.parse_loop n r) as [events rest].
      destruct (SSEParser._parse_event x); cbv iota beta;
        destruct (SSEParser.parse_loop (String.length (rest ++ b)) (rest ++ b))
          as [events' final]; reflexivity.
    + destruct (SSEParser.parse_loop (String.length (a ++ b)) (a ++ b)); reflexivity.
Qed.

Lemma parse_app (buffer c1 c2 : string) :
  SSEParser.parse buffer (c1 ++ c2)
  = let (events, rest) := SSEParser.parse buffer c1 in
    let (events', final) := SSEParser.parse rest c2 in
    (events ++ events', final).
Proof.
  unfold SSEParser.parse. rewrite <- append_assoc.
  apply parse_loop_app. lia.
Qed.

Lemma parse_nil (buffer : string) :
  Py.split1 NLNL buffer = None -> SSEParser.parse buffer "" = ([], buffer).
Proof.
  intros H. unfold SSEParser.parse. rewrite append_nil_r.
  destruct (String.length buffer); simpl; [reflexivity | now rewrite H].
Qed.

Lemma parse_done (buffer chunk : string) :
  Py.split1 NLNL (snd (SSEParser.parse buffer chunk)) = None.
Proof. unfold SSEParser.parse. apply parse_loop_done. lia. Qed.

Lemma feed_join (chunks : list string) (buffer : string) :
  Py.split1 NLNL buffer = None ->
  SSEParser.feed buffer chunks = SSEParser.parse buffer (join chunks).
Proof.
  revert buffer; induction chunks as [|c chunks IH]; intros buffer H.
  - simpl. now rewrite parse_nil.
  - simpl. rewrite parse_app.
    pose proof (parse_done buffer c) as D.
    destruct (SSEParser.parse buffer c) as [events rest]. simpl in D.
    rewrite (IH rest D). reflexivity.
Qed.

Lemma parse_loop_empty (n : nat) : SSEParser.parse_loop n "" = ([], "").
Proof. destruct n; reflexivity. Qed.

(** One complete frame text, alone in the buffer. *)
Lemma parse_single (text block : string) :
  Py.split1 NLNL text = Some (block, "") ->
  SSEParser.parse "" text
  = (match SSEParser._parse_event block with Some e => [e] | None => [] end, "").
Proof.
  intros H. unfold SSEParser.parse. simpl append.
  pose proof (split1_NLNL_shorter _ _ _ H) as L.
  destruct (String.length text) as [|k]; [lia|].
  simpl. rewrite H, parse_loop_empty.
  destruct (SSEParser._parse_event block); reflexivity.
Qed.

(** C1. Feeding chunks to one parser instance one [parse] call at a time
    yields the same frames, in the same order, as one [parse] call on
    their concatenation (and leaves the same buffer).  In particular a
    frame cut in two at any place yields that one frame, and two complete
    frames in one chunk are both yielded, in order, by one [parse] call. *)
Theorem C1_parse_chunking :
  (forall chunks : list string,
      SSEParser.feed "" chunks = SSEParser.parse "" (join chunks))
  /\ (forall (a b block : string) (e : SSEEvent.t),
         Py.split1 NLNL (a ++ b) = Some (block, "") ->
         SSEParser._parse_event block = Some e ->
         SSEParser.feed "" [a; b] = ([e], "")
         /\ SSEParser.parse "" (a ++ b) = ([e], ""))
  /\ (forall (f1 f2 b1 b2 : string) (e1 e2 : SSEEvent.t),
         Py.split1 NLNL f1 = Some (b1, "") ->
         Py.split1 NLNL f2 = Some (b2, "") ->
         SSEParser._parse_event b1 = Some e1 ->
         SSEParser._parse_event b2 = Some e2 ->
         SSEParser.parse "" (f1 ++ f2) = ([e1; e2], "")).
Proof.
  split; [|split].
  - intros chunks. now apply feed_join.
  - intros a b block e Hs He.
    assert (P : SSEParser.parse "" (a ++ b) = ([e], ""))
      by (rewrite (parse_single _ _ Hs), He; reflexivity).
    split; [|exact P].
    rewrite (feed_join [a; b] "" eq_refl). simpl join.
    rewrite append_nil_r. exact P.
  - intros f1 f2 b1 b2 e1 e2 H1 H2 E1 E2.
    rewrite parse_app, (parse_single _ _ H1), E1, (parse_single _ _ H2), E2.
    reflexivity.
Qed.

Lemma C1_parse_chunking_witness :
  SSEParser.feed "" ["event: token" ++ NL ++ "da"; "ta: hi" ++ NLNL]%string
  = ([SSEEvent.mk None (Some "token") (Some "hi") None], "").
Proof.
  apply (proj1 (proj1 (proj2 C1_parse_chunking)
                  ("event: token" ++ NL ++ "da")%string ("ta: hi" ++ NLNL)%string
                  ("event: token" ++ NL ++ "data: hi")%string
                  (SSEEvent.mk None (Some "token") (Some "hi") None)
                  eq_refl eq_refl)).
Defined.

(** ** One event block *)

(** A line changes the [data] field exactly when it is a [data] line. *)
Lemma parse_line_data (event : SSEEvent.t) (line : string) :
  SSEEvent.data (SSEParser.parse_line event line)
  = match SSEParser.data_value line with
    | Some v => Some v
    | None => SSEEvent.data event
    end.
Proof.
  unfold SSEParser.parse_line, SSEParser.data_value.
  destruct (line =? "")%string; [reflexivity|].
  destruct (Py.split1 ":" line) as [[field value]|]; [|reflexivity].
  destruct (field =? "id")%string eqn:E1.
  { apply String.eqb_eq in E1; subst; reflexivity. }
  destruct (field =? "event")%string eqn:E2.
  { apply String.eqb_eq in E2; subst; reflexivity. }
  destruct (field =? "data")%string eqn:E3; [reflexivity|].
  destruct (field =? "retry")%string; [|reflexivity].
  destruct (Py.int (Py.lstrip value)); reflexivity.
Qed.

Lemma fold_parse_line_data (lines : list string) (event : SSEEvent.t) :
  SSEEvent.data (fold_left SSEParser.parse_line lines event)
  = fold_left (fun acc line =>
                 match SSEParser.data_value line with
                 | Some v => Some v
                 | None => acc
                 end) lines (SSEEvent.data event).
Proof.
  revert event; induction lines as [|l lines IH]; intros event; [reflexivity|].
  simpl. rewrite IH, parse_line_data. reflexivity.
Qed.

Lemma last_data_acc (lines : list string) (acc : option string) :
  existsb (fun line => match SSEParser.data_value line with
                       | Some _ => true | None => false end) lines = false ->
  fold_left (fun acc line =>
               match SSEParser.data_value line with
               | Some v => Some v
               | None => acc
               end) lines acc = acc.
Proof.
  revert acc; induction lines as [|l lines IH]; intros acc H; [reflexivity|].
  simpl in *. apply orb_false_iff in H as [Hl H].
  destruct (SSEParser.data_value l); [discriminate|]. now apply IH.
Qed.

Lemma no_data_field (block : string) :
  SSEParser.has_data_field block = false -> SSEParser.last_data block = None.
Proof. intros H. unfold SSEParser.last_data. now apply last_data_acc. Qed.

Lemma rstrip_empty (s : string) :
  Py.rstrip s = EmptyString -> all_chars Py.isspace s = true.
Proof.
  induction s as [|c s IH]; [reflexivity|].
  simpl. destruct (Py.rstrip s) eqn:R; [|discriminate].
  destruct (Py.isspace c); [|discriminate]. intros _. now rewrite IH.
Qed.

Lemma strip_empty (s : string) :
  Py.strip s = EmptyString -> all_chars Py.isspace s = true.
Proof.
  unfold Py.strip. induction s as [|c s IH]; [reflexivity|].
  simpl. destruct (Py.isspace c) eqn:C; [exact IH|].
  intros H. apply rstrip_empty in H. simpl in H. rewrite C in H. discriminate.
Qed.

Lemma all_space_strip (s : string) :
  all_chars Py.isspace s = true -> Py.strip s = EmptyString.
Proof.
  unfold Py.strip. induction s as [|c s IH]; [reflexivity|].
  simpl. intros H. apply andb_true_iff in H as [C H]. rewrite C. now apply IH.
Qed.

Lemma split_char_all (p : ascii -> bool) (c : ascii) (s : string) :
  all_chars p s = true -> Forall (fun piece => all_chars p piece = true) (Py.split_char c s).
Proof.
  induction s as [|a s IH]; intros H.
  - constructor; [reflexivity | constructor].
  - simpl in H. apply andb_true_iff in H as [Ha H]. specialize (IH H). simpl.
    destruct (Ascii.eqb a c).
    + constructor; [reflexivity | exact IH].
    + destruct (Py.split_char c s) as [|piece pieces].
      * constructor; [simpl; now rewrite Ha | constructor].
      * inversion IH; subst. constructor; [simpl; now rewrite Ha | assumption].
Qed.

Lemma prefix_cons (x c : ascii) (sep s : string) :
  prefix (String x sep) (String c s)
  = if ascii_dec x c then prefix sep s else false.
Proof. reflexivity. Qed.

Lemma no_colon_in_space (line : string) :
  all_chars Py.isspace line = true -> Py.split1 ":" line = None.
Proof.
  induction line as [|c line IH]; intros H; [reflexivity|].
  simpl in H. apply andb_true_iff in H as [C H].
  rewrite split1_eq, (IH H).
  replace (prefix ":" (String c line)) with false; [reflexivity|].
  rewrite prefix_cons. destruct (ascii_dec ":" c) as [<-|]; [discriminate C | reflexivity].
Qed.

(** A block whose lines have no colon sets no field. *)
Lemma fieldless_lines (lines : list string) :
  Forall (fun line => Py.split1 ":" line = None) lines ->
  existsb (fun line => match SSEParser.data_value line with
                       | Some _ => true | None => false end) lines = false.
Proof.
  induction 1 as [|l lines Hl _ IH]; [reflexivity|].
  simpl. rewrite IH. unfold SSEParser.data_value. rewrite Hl.
  destruct (l =? "")%string; reflexivity.
Qed.

Lemma blank_block (block : string) :
  Py.strip block = EmptyString -> SSEParser.has_data_field block = false.
Proof.
  intros H. apply strip_empty in H. unfold SSEParser.has_data_field.
  apply fieldless_lines.
  eapply Forall_impl; [|apply (split_char_all _ LF _ H)].
  intros line. apply no_colon_in_space.
Qed.

(** What [_parse_event] returns, in terms of the last [data] line. *)
Lemma parse_event_spec (block : string) :
  SSEParser._parse_event block
  = if Py.truthy (SSEParser.last_data block)
    then Some (fold_left SSEParser.parse_line (Py.split_char LF block) SSEEvent.empty)
    else None.
Proof.
  unfold SSEParser._parse_event.
  rewrite fold_parse_line_data. fold (SSEParser.last_data block).
  destruct (Py.strip block =? "")%string eqn:E; [|reflexivity].
  apply String.eqb_eq in E.
  rewrite (no_data_field _ (blank_block _ E)). reflexivity.
Qed.

Lemma parse_event_data (block : string) (event : SSEEvent.t) :
  SSEParser._parse_event block = Some event ->
  SSEEvent.data event = SSEParser.last_data block
  /\ Py.truthy (SSEEvent.data event) = true.
Proof.
  rewrite parse_event_spec.
  destruct (Py.truthy (SSEParser.last_data block)) eqn:T; [|discriminate].
  intros [= <-]. rewrite fold_parse_line_data. fold (SSEParser.last_data block).
  now split.
Qed.

(** C6, as the code has it.  An event block yields a frame exactly when it
    has a [data] line and the value of its last [data] line, white space
    on the left removed, is not empty; the frame carries that value.  So a
    block with no [data] field, a blank or white-space-only block, and a
    block of lines without a colon yield no frame. *)
Theorem C6_frame_iff_nonempty_data (block : string) :
  ((exists event, SSEParser._parse_event block = Some event)
   <-> (exists v, SSEParser.last_data block = Some v /\ v <> ""))
  /\ (forall event, SSEParser._parse_event block = Some event ->
        SSEParser.has_data_field block = true
        /\ SSEEvent.data event = SSEParser.last_data block)
  /\ (SSEParser.has_data_field block = false -> SSEParser._parse_event block = None)
  /\ (Py.strip block = "" -> SSEParser._parse_event block = None)
  /\ (Forall (fun line => Py.split1 ":" line = None) (Py.split_char LF block) ->
      SSEParser._parse_event block = None).
Proof.
  assert (N : SSEParser.has_data_field block = false ->
              SSEParser._parse_event block = None).
  { intros H. rewrite parse_event_spec, (no_data_field _ H). reflexivity. }
  split; [|split; [|split; [|split]]].
  - rewrite parse_event_spec. unfold Py.truthy.
    destruct (SSEParser.last_data block) as [v|].
    + destruct (v =? "")%string eqn:E; simpl.
      * apply String.eqb_eq in E. split; [intros [? [=]]|].
        intros [v' [[= <-] Hv]]. contradiction.
      * apply String.eqb_neq in E. split; eauto.
    + split; [intros [? [=]] | intros [? [[=] _]]].
  - intros event H. split; [|apply (parse_event_data _ _ H)].
    destruct (SSEParser.has_data_field block) eqn:F; [reflexivity|].
    rewrite (N eq_refl) in H. discriminate.
  - exact N.
  - intros H. apply N, blank_block, H.
  - intros H. apply N. unfold SSEParser.has_data_field. now apply fieldless_lines.
Qed.

Lemma C6_frame_iff_nonempty_data_witness :
  SSEParser.has_data_field "event: token" = false
  /\ SSEParser._parse_event "event: token" = None.
Proof.
  split; [reflexivity|].
  apply (proj1 (proj2 (proj2 (C6_frame_iff_nonempty_data "event: token")))).
  reflexivity.
Defined.

(** A block whose [data] field is there but empty yields no frame: the
    field being present is not enough. *)
Lemma C6_counterexample :
  SSEParser.has_data_field "data:" = true
  /\ SSEParser._parse_event "data:" = None
  /\ SSEParser.parse "" ("data:" ++ NLNL) = ([], "").
Proof. vm_compute. repeat split. Qed.

(** ** The capability table *)

Lemma mem_In (x : string) (l : list string) : mem x l = true <-> In x l.
Proof.
  unfold mem. rewrite existsb_exists. split.
  - intros [y [Hy E]]. apply String.eqb_eq in E. now subst.
  - intros H. exists x. split; [exact H | apply String.eqb_refl].
Qed.

Lemma mem_not_In (x : string) (l : list string) : mem x l = false <-> ~ In x l.
Proof.
  rewrite <- mem_In. destruct (mem x l); split; intros; congruence.
Qed.

Lemma raises_inr {A : Type} (e : exn) : raises (inr e : A + exn).
Proof. now exists e. Qed.

Lemma raises_inl {A : Type} (a : A) : ~ raises (inl a : A + exn).
Proof. intros [e H]. discriminate. Qed.

(** C7, as the code has it.  [validate_model_capability] raises exactly
    for a feature among the four tags it knows that is missing from the
    model's entry of the table (an unknown model has the empty entry); any
    other feature string passes for every model. *)
Theorem C7_validate_known_features (model feature : string) :
  raises (validate_model_capability model feature)
  <-> In feature known_features
      /\ ~ In feature (get_default capabilities model []).
Proof.
  unfold validate_model_capability.
  set (caps := get_default capabilities model []).
  destruct (feature =? "thinking")%string eqn:F1.
  { apply String.eqb_eq in F1; subst feature. simpl andb.
    destruct (mem "thinking" caps) eqn:M; simpl.
    - split; [intros H; now apply raises_inl in H|].
      intros [_ H]. apply mem_In in M. contradiction.
    - split; [|intros _; apply raises_inr].
      intros _. split; [simpl; auto | now apply mem_not_In]. }
  destruct (feature =? "vision")%string eqn:F2.
  { apply String.eqb_eq in F2; subst feature. simpl andb.
    destruct (mem "vision" caps) eqn:M; simpl.
    - split; [intros H; now apply raises_inl in H|].
      intros [_ H]. apply mem_In in M. contradiction.
    - split; [|intros _; apply raises_inr].
      intros _. split; [simpl; auto | now apply mem_not_In]. }
  destruct (feature =? "structured_output")%string eqn:F3.
  { apply String.eqb_eq in F3; subst feature. simpl andb.
    destruct (mem "structured_output" caps) eqn:M; simpl.
    - split; [intros H; now apply raises_inl in H|].
      intros [_ H]. apply mem_In in M. contradiction.
    - split; [|intros _; apply raises_inr].
      intros _. split; [simpl; auto | now apply mem_not_In]. }
  destruct (feature =? "function_calling")%string eqn:F4.
  { apply String.eqb_eq in F4; subst feature. simpl andb.
    destruct (mem "function_calling" caps) eqn:M; simpl.
    - split; [intros H; now apply raises_inl in H|].
      intros [_ H]. apply mem_In in M. contradiction.
    - split; [|intros _; apply raises_inr].
      intros _. split; [simpl; auto | now apply mem_not_In]. }
  simpl. split; [intros H; now apply raises_inl in H|].
  intros [K _]. apply String.eqb_neq in F1, F2, F3, F4.
  simpl in K. intuition congruence.
Qed.

(** A feature tag outside the four passes although no entry of the table
    lists it. *)
Lemma C7_counterexample :
  validate_model_capability "HCX-005" "audio" = inl tt
  /\ ~ In "audio" (get_default capabilities "HCX-005" []).
Proof.
  split; [reflexivity|]. simpl. intuition discriminate.
Qed.

(** The table, entry by entry. *)
Lemma capability_table :
  get_default capabilities "HCX-005" [] = ["vision"; "function_calling"]
  /\ get_default capabilities "HCX-007" []
     = ["thinking"; "structured_output"; "function_calling"]
  /\ get_default capabilities "HCX-DASH-002" [] = ["function_calling"]
  /\ (forall model, model <> "HCX-005" -> model <> "HCX-007" ->
                    model <> "HCX-DASH-002" ->
                    get_default capabilities model [] = []).
Proof.
  repeat split. intros model H1 H2 H3.
  unfold get_default, capabilities, assoc.
  apply not_eq_sym, String.eqb_neq in H1, H2, H3.
  now rewrite H1, H2, H3.
Qed.

(** ** Token limits of a request *)

Lemma get_max_tokens_effort (e : ThinkingEffort) :
  get_max_tokens "HCX-007" (Some (effort_name e)) = effort_budget e.
Proof. destruct e; reflexivity. Qed.

Lemma parse_effort_name (s : string) (e : ThinkingEffort) :
  parse_effort s = Some e -> s = effort_name e.
Proof.
  unfold parse_effort.
  destruct (s =? "none")%string eqn:E1;
    [apply String.eqb_eq in E1; now intros [= <-]|].
  destruct (s =? "low")%string eqn:E2;
    [apply String.eqb_eq in E2; now intros [= <-]|].
  destruct (s =? "medium")%string eqn:E3;
    [apply String.eqb_eq in E3; now intros [= <-]|].
  destruct (s =? "high")%string eqn:E4;
    [apply String.eqb_eq in E4; now intros [= <-]|].
  discriminate.
Qed.

Lemma parse_effort_effort_name (e : ThinkingEffort) :
  parse_effort (effort_name e) = Some e.
Proof. destruct e; reflexivity. Qed.

(** A thinking configuration that validates has the effort the builder
    read from it. *)
Lemma validated_effort (t : thinking_arg) (e : ThinkingEffort) :
  match t with
  | ThinkingObject e' => e' = e
  | ThinkingDict d => ChatCompletionRequest.validate_thinking d = Some e
  end ->
  thinking_effort t = effort_name e.
Proof.
  destruct t as [e'|d]; simpl.
  - now intros ->.
  - unfold ChatCompletionRequest.validate_thinking, get_default.
    destruct (assoc "effort" d) as [s|].
    + apply parse_effort_name.
    + now intros [= <-].
Qed.

(** What the constructor returns when it returns. *)
Lemma new_inl (rd : ChatCompletionRequest.data) (req : ChatCompletionRequest.t) :
  ChatCompletionRequest.new rd = inl req ->
  ChatCompletionRequest.max_tokens req = ChatCompletionRequest.maxTokens rd
  /\ ChatCompletionRequest.max_completion_tokens req
     = ChatCompletionRequest.maxCompletionTokens rd
  /\ match ChatCompletionRequest.thinking_data rd with
     | None => ChatCompletionRequest.thinking req = None
     | Some d => exists e, ChatCompletionRequest.validate_thinking d = Some e
                           /\ ChatCompletionRequest.thinking req = Some e
     end.
Proof.
  unfold ChatCompletionRequest.new.
  destruct (negb (ChatCompletionRequest.ge1 _)); [discriminate|].
  destruct (negb (ChatCompletionRequest.ge1 _)); [discriminate|].
  destruct (ChatCompletionRequest.validate_token_params _ _); [discriminate|].
  destruct (ChatCompletionRequest.thinking_data rd) as [d|].
  - destruct (ChatCompletionRequest.validate_thinking d) as [e|] eqn:V; [|discriminate].
    intros [= <-]. simpl. repeat split. now exists e.
  - intros [= <-]. simpl. repeat split.
Qed.

(** The request model itself refuses both limits. *)
Lemma new_rejects_both (a b : Z) (t : option (list (string * string))) :
  raises (ChatCompletionRequest.new (ChatCompletionRequest.Data (Some a) (Some b) t)).
Proof.
  unfold ChatCompletionRequest.new. simpl.
  destruct (negb (1 <=? a)%Z); [apply raises_inr|].
  destruct (negb (1 <=? b)%Z); apply raises_inr.
Qed.

(** C3, as the code has it.  For HCX-007, when at most one of the two
    explicit limits is given, the request that [create] builds has no
    [max_tokens], and its [max_completion_tokens] comes from the first of
    four sources that applies: [max_completion_tokens]; [max_tokens]; the
    effort table at the effort of the request's thinking configuration
    when a non-empty [thinking] was given; 2048. *)
Theorem C3_reasoning_token_limit
        (max_tokens max_completion_tokens : option Z)
        (thinking : option thinking_arg) (req : ChatCompletionRequest.t) :
  ~ (max_tokens <> None /\ max_completion_tokens <> None) ->
  ChatCompletions.create "HCX-007" max_tokens max_completion_tokens thinking = inl req ->
  ChatCompletionRequest.max_tokens req = None
  /\ ChatCompletionRequest.max_completion_tokens req
     = Some (match max_completion_tokens, max_tokens with
             | Some v, _ => v
             | None, Some v => v
             | None, None =>
                 if thinking_truthy thinking
                 then spec_token_limit None (ChatCompletionRequest.thinking req)
                 else 2048%Z
             end).
Proof.
  intros _. unfold ChatCompletions.create.
  destruct (if thinking_truthy thinking
            then validate_model_capability "HCX-007" "thinking" else inl tt)
    as [[]|e]; [|discriminate].
  unfold ChatCompletions.token_params. simpl String.eqb. cbv iota.
  intros H. apply new_inl in H as (H1 & H2 & H3). simpl in H1, H2, H3.
  split; [exact H1|]. rewrite H2. f_equal.
  destruct max_completion_tokens as [v|]; [reflexivity|].
  destruct max_tokens as [v|]; [reflexivity|].
  destruct (thinking_truthy thinking) eqn:T; [|reflexivity].
  destruct thinking as [t|]; [|discriminate].
  assert (E : exists e, ChatCompletionRequest.thinking req = Some e
                        /\ thinking_effort t = effort_name e).
  { destruct t as [e'|d].
    - destruct H3 as (e & V & R). exists e. split; [exact R|].
      change (parse_effort (effort_name e') = Some e) in V.
      rewrite parse_effort_effort_name in V. injection V as <-. reflexivity.
    - destruct H3 as (e & V & R). exists e. split; [exact R|].
      now apply (validated_effort (ThinkingDict d)). }
  destruct E as (e & -> & ->). simpl. apply get_max_tokens_effort.
Qed.

Lemma C3_reasoning_token_limit_witness :
  ChatCompletionRequest.max_tokens
    (ChatCompletionRequest.mk None (Some 10240%Z) (Some EffortMedium)) = None
  /\ ChatCompletionRequest.max_completion_tokens
       (ChatCompletionRequest.mk None (Some 10240%Z) (Some EffortMedium))
     = Some 10240%Z.
Proof.
  apply (C3_reasoning_token_limit None None
           (Some (ThinkingDict [("effort", "medium")]))
           (ChatCompletionRequest.mk None (Some 10240%Z) (Some EffortMedium))).
  - intros [H _]. now apply H.
  - reflexivity.
Defined.

(** With only [max_tokens] given and a thinking effort supplied, the limit
    of the request is [max_tokens], not the table's budget for the effort
    as the three-source wording has it. *)
Lemma C3_counterexample :
  ChatCompletions.create "HCX-007" (Some 100%Z) None (Some (ThinkingObject EffortHigh))
  = inl (ChatCompletionRequest.mk None (Some 100%Z) (Some EffortHigh))
  /\ spec_token_limit None (Some EffortHigh) = 20480%Z
  /\ 100%Z <> 20480%Z.
Proof. repeat split. discriminate. Qed.

(** The limits [create] gives when it builds: every call with valid
    values builds. *)
Lemma create_builds_HCX007 (max_tokens max_completion_tokens : option Z)
      (e : option ThinkingEffort) :
  ChatCompletionRequest.ge1 max_tokens = true ->
  ChatCompletionRequest.ge1 max_completion_tokens = true ->
  exists req,
    ChatCompletions.create "HCX-007" max_tokens max_completion_tokens
                           (option_map ThinkingObject e) = inl req.
Proof.
  intros G1 G2.
  destruct max_completion_tokens as [b|], max_tokens as [a|], e as [[]|];
    simpl in G1, G2;
    unfold ChatCompletions.create, ChatCompletions.token_params,
      ChatCompletionRequest.new;
    cbn -[Z.leb]; rewrite ?G1, ?G2; cbn; eauto.
Qed.

(** C4 at a failing input.  With both limits given [create] raises
    nothing: for HCX-007 it keeps [max_completion_tokens] and drops
    [max_tokens], for another model it keeps [max_tokens] and drops
    [max_completion_tokens]; the request is built (and then sent). *)
Theorem C4_both_limits_build :
  ChatCompletions.create "HCX-007" (Some 100%Z) (Some 200%Z) None
  = inl (ChatCompletionRequest.mk None (Some 200%Z) None)
  /\ ChatCompletions.create "HCX-005" (Some 100%Z) (Some 200%Z) None
     = inl (ChatCompletionRequest.mk (Some 100%Z) None None).
Proof. split; reflexivity. Qed.

(** No pair of valid limits makes [create] raise, whatever the model. *)
Lemma create_accepts_both (model : string) (a b : Z) :
  (1 <= a)%Z -> (1 <= b)%Z ->
  exists req, ChatCompletions.create model (Some a) (Some b) None = inl req.
Proof.
  intros Ha Hb. apply Z.leb_le in Ha, Hb.
  unfold ChatCompletions.create, ChatCompletions.token_params. simpl.
  destruct (model =? "HCX-007")%string; unfold ChatCompletionRequest.new; simpl.
  - rewrite Hb. simpl. eauto.
  - rewrite Ha. simpl. eauto.
Qed.

(** ** Message content *)

(** An item that is not passed over appends one item or raises. *)
Lemma prepare_item_kept (item : pyval) :
  dropped item = false ->
  (exists x, prepare_item item = inl (Some x)) \/ raises (prepare_item item).
Proof.
  destruct item as [| | | | |d]; try discriminate.
  unfold dropped, prepare_item.
  destruct (PyVal.type_is d "text").
  - intros _. destruct (PyVal.getitem (PDict d) "text"); [left; eauto | right; apply raises_inr].
  - destruct (PyVal.type_is d "image_url"); [|discriminate].
    destruct (PyVal.has_key d "image_url").
    + intros _. destruct (PyVal.getitem (PDict d) "image_url") as [src|];
        [|right; apply raises_inr].
      destruct (PyVal.getitem src "url"); [left; eauto | right; apply raises_inr].
    + destruct (PyVal.has_key d "data_uri"); [|discriminate].
      intros _. destruct (PyVal.getitem (PDict d) "data_uri") as [src|];
        [|right; apply raises_inr].
      destruct (PyVal.getitem src "data"); [left; eauto | right; apply raises_inr].
Qed.

Lemma prepare_item_dropped (item : pyval) :
  dropped item = true -> prepare_item item = inl None.
Proof.
  destruct item as [| | | | |d]; try reflexivity.
  unfold dropped, prepare_item.
  destruct (PyVal.type_is d "text"); [discriminate|].
  destruct (PyVal.type_is d "image_url"); [|reflexivity].
  destruct (PyVal.has_key d "image_url"); [discriminate|].
  destruct (PyVal.has_key d "data_uri"); [discriminate | reflexivity].
Qed.

Lemma prepare_items_filter (items : list pyval) :
  prepare_items items = prepare_items (filter kept items).
Proof.
  induction items as [|item items IH]; [reflexivity|].
  simpl. unfold kept at 1. destruct (dropped item) eqn:D; simpl.
  - rewrite (prepare_item_dropped _ D), IH.
    destruct (prepare_items (filter kept items)); reflexivity.
  - rewrite IH. reflexivity.
Qed.

Lemma prepare_items_length (items prepared : list pyval) :
  prepare_items items = inl prepared ->
  List.length prepared = List.length (filter kept items).
Proof.
  revert prepared; induction items as [|item items IH]; intros prepared.
  - now intros [= <-].
  - simpl. unfold kept at 1. destruct (dropped item) eqn:D; simpl.
    + rewrite (prepare_item_dropped _ D).
      destruct (prepare_items items) as [p|]; [|discriminate].
      intros [= <-]. now apply IH.
    + destruct (prepare_item_kept _ D) as [[x ->]|[e ->]]; [|discriminate].
      destruct (prepare_items items) as [p|]; [|discriminate].
      intros [= <-]. simpl. f_equal. now apply IH.
Qed.

(** C10.  In a list content every item that is not a dict tagged [text]
    or [image_url], and every [image_url] item with neither an
    [image_url] nor a [data_uri] key, is passed over without an error:
    taking such items out of the list changes nothing, a list of such
    items gives the empty list, and a list that is prepared has as many
    items as the input has items of the other kind, so it may be
    shorter. *)
Theorem C10_dropped_items :
  (forall item, dropped item = true -> prepare_item item = inl None)
  /\ (forall items,
         prepare_message_content (PList items)
         = prepare_message_content (PList (filter kept items)))
  /\ (forall items, forallb dropped items = true ->
                    prepare_message_content (PList items) = inl (PList []))
  /\ (forall items prepared,
         prepare_message_content (PList items) = inl (PList prepared) ->
         List.length prepared = List.length (filter kept items)
         /\ List.length prepared <= List.length items).
Proof.
  split; [exact prepare_item_dropped|]. split; [|split].
  - intros items. simpl. now rewrite prepare_items_filter.
  - intros items H. simpl. rewrite prepare_items_filter.
    replace (filter kept items) with (@nil pyval); [reflexivity|].
    induction items as [|item items IH]; [reflexivity|].
    simpl in H. apply andb_true_iff in H as [D H].
    simpl. unfold kept at 1. rewrite D. simpl. now apply IH.
  - intros items prepared H. simpl in H.
    destruct (prepare_items items) as [p|] eqn:P; [|discriminate].
    injection H as <-. apply prepare_items_length in P.
    split; [exact P|]. rewrite P. apply filter_length_le.
Qed.

Lemma C10_dropped_items_witness :
  prepare_message_content
    (PList [PStr "hello";
            PDict [("type", PStr "text"); ("text", PStr "hi")];
            PDict [("type", PStr "audio")];
            PDict [("type", PStr "image_url")]])
  = inl (PList [PDict [("type", PStr "text"); ("text", PStr "hi")]])
  /\ prepare_message_content
       (PList [PNone; PDict [("type", PStr "image_url"); ("url", PStr "u")]])
     = inl (PList []).
Proof.
  split.
  - rewrite (proj1 (proj2 C10_dropped_items)). reflexivity.
  - apply (proj1 (proj2 (proj2 C10_dropped_items))). reflexivity.
Defined.

(** ** The retry driver *)

(** The delays of the default settings: each is the one before doubled,
    at most 60.0. *)
Lemma backoff_delay_step (i : nat) :
  fmin (backoff_delay i * 2.0)%float 60.0%float = backoff_delay (S i).
Proof.
  destruct (Nat.lt_ge_cases i 6) as [H|H].
  - do 6 (destruct i as [|i]; [reflexivity|]). lia.
  - assert (P : forall j, 6 <= j -> backoff_delay j = 60.0%float).
    { intros j Hj. unfold backoff_delay.
      replace (Z.min (2 ^ Z.of_nat j) 60) with 60%Z; [reflexivity|].
      assert (2 ^ 6 <= 2 ^ Z.of_nat j)%Z by (apply Z.pow_le_mono_r; lia).
      change (2 ^ 6)%Z with 64%Z in *. lia. }
    rewrite (P i H), (P (S i)) by lia. reflexivity.
Qed.

Lemma backoff_delay_values :
  backoff_delay 0 = 1.0%float /\ backoff_delay 1 = 2.0%float
  /\ backoff_delay 2 = 4.0%float /\ backoff_delay 5 = 32.0%float
  /\ backoff_delay 6 = 60.0%float
  /\ (forall i, 6 <= i -> backoff_delay i = 60.0%float).
Proof.
  repeat split. intros i H. unfold backoff_delay.
  replace (Z.min (2 ^ Z.of_nat i) 60) with 60%Z; [reflexivity|].
  assert (2 ^ 6 <= 2 ^ Z.of_nat i)%Z by (apply Z.pow_le_mono_r; lia).
  change (2 ^ 6)%Z with 64%Z in *. lia.
Qed.

Section RetryFacts.

Variables W A E : Type.
Variable func : W -> (A + E) * W.

Lemma nth_call_S (j : nat) (w : W) :
  nth_call func (S j) w = nth_call func j (snd (func w)).
Proof. reflexivity. Qed.

Lemma retry_loop_S (N : Z) (b m : float) (n : nat) (attempt : Z) (delay : float)
      (last : option E) (w : W) :
  retry_loop W A E func N b m (S n) attempt delay last w
  = match func w with
    | (inl a, w') => (inl a, w', [Call])
    | (inr e, w') =>
        if (attempt <? N - 1)%Z then
          let '(r, w'', trace) :=
            retry_loop W A E func N b m n (attempt + 1)%Z
                       (fmin (delay * b)%float m) (Some e) w' in
          (r, w'', Call :: Sleep delay :: trace)
        else
          let '(r, w'', trace) :=
            retry_loop W A E func N b m n (attempt + 1)%Z delay (Some e) w' in
          (r, w'', Call :: trace)
    end.
Proof. reflexivity. Qed.

(** The loop from attempt [i] on with the default settings, entered
    with at least one turn left: [S k] calls are made, all but the last
    fail, and the last one decides. *)
Lemma retry_loop_spec (N : Z) (iterations i : nat) (last : option E) (w : W) :
  (Z.of_nat (S iterations) + Z.of_nat i = N)%Z ->
  exists k,
    k <= iterations
    /\ snd (retry_loop W A E func N 2.0%float 60.0%float (S iterations)
              (Z.of_nat i) (backoff_delay i) last w)
       = Call :: schedule_from i k
    /\ snd (fst (retry_loop W A E func N 2.0%float 60.0%float (S iterations)
                   (Z.of_nat i) (backoff_delay i) last w))
       = state_after func (S k) w
    /\ (forall j, j < k -> exists e, nth_call func j w = inr e)
    /\ match nth_call func k w with
       | inl a =>
           fst (fst (retry_loop W A E func N 2.0%float 60.0%float (S iterations)
                       (Z.of_nat i) (backoff_delay i) last w)) = inl a
       | inr e =>
           fst (fst (retry_loop W A E func N 2.0%float 60.0%float (S iterations)
                       (Z.of_nat i) (backoff_delay i) last w))
           = inr (Propagate e)
           /\ k = iterations
       end.
Proof.
  revert i last w; induction iterations as [|m IH]; intros i last w HN.
  - exists 0. unfold nth_call. simpl.
    destruct (func w) as [[a|e] w1] eqn:F; simpl.
    + repeat split; [lia | intros j Hj; lia].
    + replace (Z.of_nat i <? N - 1)%Z with false
        by (symmetry; apply Z.ltb_ge; lia).
      simpl. repeat split; [lia | intros j Hj; lia].
  - remember (retry_loop W A E func N 2.0%float 60.0%float (S (S m))
                (Z.of_nat i) (backoff_delay i) last w) as R eqn:HR.
    rewrite retry_loop_S in HR.
    destruct (func w) as [[a|e] w1] eqn:F.
    + subst R. exists 0. unfold nth_call. simpl. rewrite F. simpl.
      repeat split; [lia | intros j Hj; lia].
    + replace (Z.of_nat i <? N - 1)%Z with true in HR
        by (symmetry; apply Z.ltb_lt; lia).
      rewrite backoff_delay_step in HR.
      replace (Z.of_nat i + 1)%Z with (Z.of_nat (S i)) in HR by lia.
      destruct (IH (S i) (Some e) w1 ltac:(lia)) as (k & Hk & Ht & Hw & Hf & Hl).
      destruct (retry_loop W A E func N 2.0%float 60.0%float (S m)
                  (Z.of_nat (S i)) (backoff_delay (S i)) (Some e) w1)
        as [[r w2] trace].
      subst R. simpl in Ht, Hw, Hl |- *.
      exists (S k). repeat split.
      * lia.
      * rewrite Ht. reflexivity.
      * rewrite Hw, F. reflexivity.
      * intros [|j] Hj.
        -- exists e. unfold nth_call. simpl. now rewrite F.
        -- rewrite nth_call_S, F. apply Hf. lia.
      * rewrite nth_call_S, F. simpl.
        destruct (nth_call func k w1); [exact Hl|].
        destruct Hl as [-> ->]. now split.
Qed.

(** C5.  With [max_retries = N >= 1] and the default delays the driver
    calls [func] some [k] times, [1 <= k <= N], and between consecutive
    calls it sleeps 1.0, 2.0, 4.0, ... seconds, never more than 60.0
    ([schedule k]); every call before the last one failed; if the last
    call succeeds its result is returned, and if it fails then [k = N]
    and the exception of that call is what the driver raises. *)
Theorem C5_retry_backoff (N : Z) (w : W) :
  (1 <= N)%Z ->
  exists k,
    1 <= k /\ (Z.of_nat k <= N)%Z
    /\ snd (retry_with_backoff func N 1.0%float 2.0%float 60.0%float w)
       = schedule k
    /\ calls (snd (retry_with_backoff func N 1.0%float 2.0%float 60.0%float w)) = k
    /\ snd (fst (retry_with_backoff func N 1.0%float 2.0%float 60.0%float w))
       = state_after func k w
    /\ (forall j, j < k - 1 -> exists e, nth_call func j w = inr e)
    /\ match nth_call func (k - 1) w with
       | inl a =>
           fst (fst (retry_with_backoff func N 1.0%float 2.0%float 60.0%float w))
           = inl a
       | inr e =>
           fst (fst (retry_with_backoff func N 1.0%float 2.0%float 60.0%float w))
           = inr (Propagate e)
           /\ Z.of_nat k = N
       end.
Proof.
  intros HN. unfold retry_with_backoff.
  destruct (Z.to_nat N) as [|m] eqn:Hm; [lia|].
  destruct (retry_loop_spec N m 0 None w ltac:(lia)) as (k & Hk & Ht & Hw & Hf & Hl).
  change (Z.of_nat 0) with 0%Z in *.
  change (backoff_delay 0) with 1.0%float in *.
  exists (S k). replace (S k - 1) with k by lia.
  repeat split; try assumption; try lia.
  - rewrite Ht. clear. unfold calls. simpl. f_equal.
    generalize 0. induction k as [|k IH]; intros i; [reflexivity|].
    simpl. f_equal. apply IH.
  - destruct (nth_call func k w); [exact Hl|].
    destruct Hl as [-> ->]. split; [reflexivity | lia].
Qed.

(** With [max_retries = 0] the driver itself never calls [func]: the
    loop has no turn and [raise None] fails. *)
Lemma retry_with_backoff_zero (d b m : float) (w : W) :
  retry_with_backoff func 0 d b m w = (inr RaiseNone, w, []).
Proof. reflexivity. Qed.

(** The end of [_create_sync] always makes a first call, through the
    driver or without it. *)
Lemma create_sync_calls (max_retries : Z) (w : W) :
  exists trace, snd (_create_sync func max_retries w) = Call :: trace.
Proof.
  unfold _create_sync. destruct (max_retries >? 0)%Z eqn:G.
  - apply Z.gtb_lt in G. unfold retry_with_backoff.
    destruct (Z.to_nat max_retries) as [|n] eqn:Hn; [lia|].
    destruct (retry_loop_spec max_retries n 0 None w ltac:(lia))
      as (k & _ & Ht & _).
    change (Z.of_nat 0) with 0%Z in Ht.
    change (backoff_delay 0) with 1.0%float in Ht.
    rewrite Ht. eauto.
  - destruct (func w) as [[a|e] w']; simpl; eauto.
Qed.

(** C9.  The client with [max_retries = 0] makes the request without the
    retry driver: the gate at the end of [_create_sync] calls [func]
    exactly once, nothing sleeps, and what the call returns or raises is
    what the caller gets.  The gate hands over to the driver exactly when
    [max_retries > 0], so the driver is never entered with 0; on either
    side of the gate the operation is called at least once. *)
Theorem C9_no_retries (w : W) :
  _create_sync func 0 w
  = (match fst (func w) with
     | inl a => inl a
     | inr e => inr (Propagate e)
     end, snd (func w), [Call])
  /\ calls (snd (_create_sync func 0 w)) = 1
  /\ sleeps (snd (_create_sync func 0 w)) = []
  /\ (forall N : Z,
        (0 < N)%Z
        <-> _create_sync func N w
            = retry_with_backoff func N 1.0%float 2.0%float 60.0%float w)
  /\ (forall N : Z, 1 <= calls (snd (_create_sync func N w))).
Proof.
  split; [|split; [|split; [|split]]].
  - unfold _create_sync. simpl. now destruct (func w) as [[a|e] w'].
  - unfold _create_sync. simpl. now destruct (func w) as [[a|e] w'].
  - unfold _create_sync. simpl. now destruct (func w) as [[a|e] w'].
  - intros N. split.
    + intros H. unfold _create_sync.
      now replace (N >? 0)%Z with true by (symmetry; apply Z.gtb_lt; lia).
    + intros H. destruct (Z.ltb_spec 0 N) as [L|L]; [exact L|exfalso].
      destruct (create_sync_calls N w) as [trace Ht].
      rewrite H in Ht. unfold retry_with_backoff in Ht.
      replace (Z.to_nat N) with 0 in Ht by lia. discriminate Ht.
  - intros N. destruct (create_sync_calls N w) as [trace ->].
    unfold calls. simpl. lia.
Qed.

End RetryFacts.

(** ** The stream decoder *)

Section DecoderFacts.

Variable Chunk : Type.
Variable json_loads : string -> json + string.
Variable ChatCompletionChunk : json -> Chunk + exn.
Variable py_str : json -> string.

Local Notation "'gnext'" := (next Chunk json_loads ChatCompletionChunk py_str).
Local Notation "'grun'" := (run Chunk json_loads ChatCompletionChunk py_str).
Local Notation "'gleave'" := (leave Chunk).

Lemma leave_started (b : body Chunk) : started (snd (gleave 0 b)).
Proof. destruct b; reflexivity. Qed.

Lemma next_started (g : generator) : started g -> started (snd (gnext g)).
Proof.
  unfold started, next. destruct g as [[] lines buffer closes]; simpl.
  - intros [].
  - intros ->. apply leave_started.
  - trivial.
Qed.

Lemma close_started (g : generator) : started g -> started (close g).
Proof.
  unfold started, close. destruct g as [[] lines buffer closes]; simpl;
    [intros [] | now intros -> | trivial].
Qed.

Lemma run_started (ops : list op) (g : generator) :
  started g -> started (grun ops g).
Proof.
  revert g; induction ops as [|o ops IH]; intros g H; [exact H|].
  simpl. apply IH. destruct o; [now apply next_started | now apply close_started].
Qed.

Lemma first_next_started (lines : transport) :
  started (snd (gnext (start lines))).
Proof. unfold next. simpl. apply leave_started. Qed.

Lemma started_closes (g : generator) :
  started g -> gen_closes g = if is_finished g then 1 else 0.
Proof.
  unfold started, is_finished. destruct (gen_phase g); [intros [] | trivial | trivial].
Qed.

(** How [next] leaves a generator that has been advanced before. *)
Lemma next_exit (g : generator) :
  started g ->
  match fst (gnext g) with
  | Yield _ => is_finished (snd (gnext g)) = false
  | StopIteration | Raise _ => is_finished (snd (gnext g)) = true
  end.
Proof.
  unfold started, next, is_finished.
  destruct g as [[] lines buffer closes]; simpl; [intros [] | | reflexivity].
  intros _. destruct (resume _ _ _ _ _ _); reflexivity.
Qed.

Lemma close_finished (g : generator) :
  started g -> is_finished (close g) = true.
Proof.
  unfold started, close, is_finished.
  destruct g as [[] lines buffer closes]; simpl; [intros [] | reflexivity | reflexivity].
Qed.

(** C8.  Take a generator of [__iter__] (of [__aiter__]: the bodies are
    the same, with [aclose] for [close]) that has been advanced once and
    then used in any way, by [next] and [close] in any order.  The
    response has been closed once if the generator is finished and not
    at all if it is still suspended.  The generator finishes on each of
    the three exits, so on each of them the response is closed exactly
    once: [next] ending the iteration, [next] raising, and [close]
    (which is what abandoning the suspended generator does). *)
Theorem C8_closed_exactly_once (lines : transport) (ops : list op) :
  let g := grun (Next :: ops) (start lines) in
  gen_closes g = (if is_finished g then 1 else 0)
  /\ match fst (gnext g) with
     | Yield _ =>
         is_finished (snd (gnext g)) = false /\ gen_closes (snd (gnext g)) = 0
     | StopIteration | Raise _ =>
         is_finished (snd (gnext g)) = true /\ gen_closes (snd (gnext g)) = 1
     end
  /\ (is_finished (close g) = true /\ gen_closes (close g) = 1).
Proof.
  intros g.
  assert (S : started g).
  { unfold g. simpl. apply run_started, first_next_started. }
  split; [now apply started_closes|]. split.
  - pose proof (next_exit g S) as X.
    pose proof (started_closes _ (next_started g S)) as C.
    destruct (fst (gnext g)); rewrite X in C; now split.
  - pose proof (close_finished g S) as X.
    pose proof (started_closes _ (close_started g S)) as C.
    rewrite X in C. now split.
Qed.

(** A generator that was never advanced has not entered the [try]:
    closing it closes nothing. *)
Lemma close_unstarted (lines : transport) :
  gen_closes (close (start lines)) = 0.
Proof. reflexivity. Qed.

Local Notation "'gprocess'" :=
  (_process_event Chunk json_loads ChatCompletionChunk py_str).
Local Notation "'gevents_all'" :=
  (events_all Chunk json_loads ChatCompletionChunk py_str).
Local Notation "'glines_all'" :=
  (lines_all Chunk json_loads ChatCompletionChunk py_str).
Local Notation "'giterate'" :=
  (iterate Chunk json_loads ChatCompletionChunk py_str).
Local Notation "'gdecode'" :=
  (decode Chunk json_loads ChatCompletionChunk py_str).
Local Notation "'gerror_event'" := (error_event py_str).

(** The inner loop run to its end is the decoder run over the frames the
    parser yields. *)
Lemma events_all_frames (n : nat) (buffer : string) :
  gevents_all n buffer
  = let (events, buffer') := SSEParser.parse_loop n buffer in
    match gdecode events with
    | (chunks, Some e) => (chunks, inl e)
    | (chunks, None) => (chunks, inr buffer')
    end.
Proof.
  revert buffer; induction n as [|n IH]; intros buffer; [reflexivity|].
  simpl. destruct (Py.split1 NLNL buffer) as [[x r]|]; [|reflexivity].
  rewrite IH. destruct (SSEParser.parse_loop n r) as [events buffer'].
  destruct (SSEParser._parse_event x) as [event|]; [|reflexivity].
  simpl. destruct (gprocess event) as [[chunk|]|e]; [|reflexivity|reflexivity].
  destruct (gdecode events) as [chunks [e|]]; reflexivity.
Qed.

Lemma decode_app (xs ys : list SSEEvent.t) :
  gdecode (xs ++ ys)
  = match gdecode xs with
    | (chunks, Some e) => (chunks, Some e)
    | (chunks, None) =>
        let (chunks', r) := gdecode ys in (chunks ++ chunks', r)
    end.
Proof.
  induction xs as [|x xs IH]; simpl.
  - destruct (gdecode ys); reflexivity.
  - destruct (gprocess x) as [[chunk|]|e]; [|exact IH|reflexivity].
    rewrite IH. destruct (gdecode xs) as [chunks [e|]]; [reflexivity|].
    destruct (gdecode ys); reflexivity.
Qed.

(** The generator run to its end over lines that all arrive is the
    decoder run over the frames of those lines. *)
Lemma lines_all_frames (lines : list string) (buffer : string) :
  glines_all (map inl lines) buffer = gdecode (frames lines buffer).
Proof.
  revert buffer; induction lines as [|line lines IH]; intros buffer; [reflexivity|].
  simpl. destruct (line =? "")%string; [apply IH|].
  unfold SSEParser.parse. rewrite events_all_frames.
  destruct (SSEParser.parse_loop _ _) as [events buffer'].
  rewrite decode_app. destruct (gdecode events) as [chunks [e|]]; [reflexivity|].
  rewrite IH. reflexivity.
Qed.

(** What an [error] event raises is never a [JSONDecodeError]. *)
Lemma error_event_class (data : json) :
  is_JSONDecodeError (gerror_event data) = false.
Proof.
  unfold error_event, JSON.get.
  destruct data; try reflexivity.
  destruct (get_default members "status" (JObject [])); reflexivity.
Qed.

Lemma error_event_message (data message : json) :
  JSON.status_message data = Some message ->
  gerror_event data = Exn StreamingError ("Streaming error: " ++ format py_str message).
Proof.
  unfold JSON.status_message, error_event, JSON.get, get_default.
  destruct data as [| | | | | |members]; try discriminate.
  destruct (assoc "status" members) as [[| | | | | |status]|]; try discriminate.
  now intros ->.
Qed.

(** The decoder on an [error] frame whose data is JSON. *)
Lemma process_error_event (event : SSEEvent.t) (text : string) (data : json) :
  SSEEvent.event event = Some "error" ->
  SSEEvent.data event = Some text ->
  text <> "" ->
  json_loads text = inl data ->
  gprocess event = inr (gerror_event data).
Proof.
  intros He Hd Ht Hj. unfold _process_event. rewrite Hd.
  apply String.eqb_neq in Ht. rewrite Ht, Hj, He. simpl opt_is. cbv iota.
  now rewrite error_event_class.
Qed.

Lemma parse_loop_truthy (n : nat) (buffer : string) (event : SSEEvent.t) :
  In event (fst (SSEParser.parse_loop n buffer)) ->
  Py.truthy (SSEEvent.data event) = true.
Proof.
  revert buffer; induction n as [|n IH]; intros buffer; [intros []|].
  simpl. destruct (Py.split1 NLNL buffer) as [[x r]|]; [|intros []].
  specialize (IH r). destruct (SSEParser.parse_loop n r) as [events final].
  destruct (SSEParser._parse_event x) as [e|] eqn:P; [|exact IH].
  intros [<-|H]; [|now apply IH]. apply (parse_event_data _ _ P).
Qed.

(** Every frame the parser hands over has a non-empty [data]. *)
Lemma frames_truthy (lines : list string) (buffer : string) (event : SSEEvent.t) :
  In event (frames lines buffer) -> Py.truthy (SSEEvent.data event) = true.
Proof.
  revert buffer; induction lines as [|line lines IH]; intros buffer; [intros []|].
  simpl. destruct (line =? "")%string; [apply IH|].
  pose proof (parse_loop_truthy (String.length (buffer ++ (line ++ NLNL)))
                (buffer ++ (line ++ NLNL)) event) as T.
  unfold SSEParser.parse.
  destruct (SSEParser.parse_loop _ _) as [events buffer'].
  intros H. apply in_app_or in H as [H|H]; [now apply T | now apply (IH buffer')].
Qed.

(** What the decoder does with a frame that carries both the event name
    [error] and data.  Let the frames of the lines be [before], then such
    a frame whose data is JSON, then [after], and let the frames [before]
    raise nothing.  Pulled to the end, the generator gives the chunks of
    [before] and nothing else, and raises a [StreamingError]; when the
    body has a status message, the text of the error ends with it.  No
    frame of [after] takes part, and the response is closed once.  Such a
    frame only comes from a line that has a line feed inside it (see
    [single_line_frames] below). *)
Lemma error_frame_terminates
        (lines : list string) (before after : list SSEEvent.t)
        (event : SSEEvent.t) (text : string) (data : json) (chunks : list Chunk) :
  frames lines "" = before ++ event :: after ->
  gdecode before = (chunks, None) ->
  SSEEvent.event event = Some "error" ->
  SSEEvent.data event = Some text ->
  json_loads text = inl data ->
  giterate (map inl lines)
  = (chunks,
     Some (Exn StreamingError
             ("Error during streaming: " ++ exn_str (gerror_event data))), 1)
  /\ (forall message,
         JSON.status_message data = Some message ->
         exn_str (gerror_event data) = "Streaming error: " ++ format py_str message)%string.
Proof.
  intros Hf Hb He Hd Hj. split.
  - assert (Ht : text <> "").
    { assert (T : Py.truthy (SSEEvent.data event) = true).
      { apply (frames_truthy lines ""). rewrite Hf. apply in_or_app. right. now left. }
      rewrite Hd in T. simpl in T. intros ->. discriminate. }
    unfold iterate, finish. rewrite lines_all_frames, Hf, decode_app, Hb. simpl.
    rewrite (process_error_event event text data He Hd Ht Hj).
    rewrite app_nil_r. reflexivity.
  - intros message Hm. now rewrite (error_event_message _ _ Hm).
Qed.

Local Notation "'gevents_loop'" :=
  (events_loop Chunk json_loads ChatCompletionChunk py_str).
Local Notation "'glines_loop'" :=
  (lines_loop Chunk json_loads ChatCompletionChunk py_str).
Local Notation "'gresume'" :=
  (resume Chunk json_loads ChatCompletionChunk py_str).
Local Notation "'gresume_all'" :=
  (resume_all Chunk json_loads ChatCompletionChunk py_str).
Local Notation "'gdrain'" :=
  (drain Chunk json_loads ChatCompletionChunk py_str).

Lemma events_all_fuel (n m : nat) (buffer : string) :
  String.length buffer <= n -> String.length buffer <= m ->
  gevents_all n buffer = gevents_all m buffer.
Proof.
  intros Hn Hm. rewrite !events_all_frames.
  now rewrite (parse_loop_fuel n m buffer Hn Hm).
Qed.

(** The inner loop to the end, one [yield] at a time. *)
Lemma events_all_step (n : nat) (buffer : string) :
  String.length buffer <= n ->
  gevents_all n buffer
  = match gevents_loop n buffer with
    | InnerYield chunk buffer' =>
        let (chunks, r) := gevents_all (String.length buffer') buffer' in
        (chunk :: chunks, r)
    | InnerRaise e _ => ([], inl e)
    | InnerDone buffer' => ([], inr buffer')
    end.
Proof.
  revert buffer; induction n as [|n IH]; intros buffer Hn; [reflexivity|].
  simpl. destruct (Py.split1 NLNL buffer) as [[x r]|] eqn:Hs; [|reflexivity].
  pose proof (split1_NLNL_shorter _ _ _ Hs) as L.
  destruct (SSEParser._parse_event x) as [event|]; [|apply IH; lia].
  destruct (gprocess event) as [[chunk|]|e]; [|apply IH; lia|reflexivity].
  rewrite (events_all_fuel n (String.length r) r) by lia. reflexivity.
Qed.

(** The body of the [try] to the end, one [yield] at a time. *)
Lemma lines_all_step (lines : transport) (buffer : string) :
  glines_all lines buffer
  = match glines_loop lines buffer with
    | BodyYield chunk buffer' rest =>
        let (chunks, r) := gresume_all rest buffer' in (chunk :: chunks, r)
    | BodyRaise e _ _ => ([], Some e)
    | BodyDone _ => ([], None)
    end.
Proof.
  revert buffer; induction lines as [|[line|e] lines IH]; intros buffer;
    [reflexivity | | reflexivity].
  simpl. destruct (line =? "")%string; [apply IH|].
  rewrite events_all_step by lia.
  destruct (gevents_loop _ _) as [chunk buffer'|e buffer'|buffer'].
  - unfold resume_all.
    destruct (gevents_all _ buffer') as [chunks [e|buffer'']]; [reflexivity|].
    destruct (glines_all lines buffer''); reflexivity.
  - reflexivity.
  - rewrite IH. destruct (glines_loop lines buffer'); [|reflexivity|reflexivity].
    destruct (gresume_all rest buffer0); reflexivity.
Qed.

Lemma resume_all_step (lines : transport) (buffer : string) :
  gresume_all lines buffer
  = match gresume lines buffer with
    | BodyYield chunk buffer' rest =>
        let (chunks, r) := gresume_all rest buffer' in (chunk :: chunks, r)
    | BodyRaise e _ _ => ([], Some e)
    | BodyDone _ => ([], None)
    end.
Proof.
  unfold resume_all at 1, resume. rewrite events_all_step by lia.
  destruct (gevents_loop _ _) as [chunk buffer'|e buffer'|buffer'].
  - unfold resume_all.
    destruct (gevents_all _ buffer') as [chunks [e|buffer'']]; [reflexivity|].
    destruct (glines_all lines buffer''); reflexivity.
  - reflexivity.
  - rewrite lines_all_step.
    destruct (glines_loop lines buffer'); [|reflexivity|reflexivity].
    destruct (gresume_all rest buffer0); reflexivity.
Qed.

Lemma drain_suspended (fuel : nat) (lines : transport) (buffer : string) :
  List.length (fst (gresume_all lines buffer)) < fuel ->
  gdrain fuel (Gen Suspended lines buffer 0)
  = finish Chunk (gresume_all lines buffer).
Proof.
  revert lines buffer; induction fuel as [|fuel IH]; intros lines buffer H; [lia|].
  rewrite resume_all_step in H |- *. simpl. unfold next. simpl.
  destruct (gresume lines buffer) as [chunk buffer' rest|e buffer' rest|buffer'];
    [|reflexivity|reflexivity].
  simpl. specialize (IH rest buffer').
  destruct (gresume_all rest buffer') as [chunks r]. simpl in H, IH.
  rewrite IH by lia. destruct r; reflexivity.
Qed.

(** [iterate] is the generator pulled with [next] until it stops or
    raises. *)
Lemma drain_iterate (fuel : nat) (lines : transport) :
  List.length (fst (fst (giterate lines))) < fuel ->
  gdrain fuel (start lines) = giterate lines.
Proof.
  unfold iterate. rewrite lines_all_step.
  destruct fuel as [|fuel]; [lia|]. simpl drain. unfold next, start. simpl.
  destruct (glines_loop lines "") as [chunk buffer' rest|e buffer' rest|buffer'];
    [|reflexivity|reflexivity].
  simpl. pose proof (drain_suspended fuel rest buffer') as D.
  destruct (gresume_all rest buffer') as [chunks r]. simpl in D |- *.
  intros H. rewrite D by (destruct r; simpl in H; lia). destruct r; reflexivity.
Qed.

End DecoderFacts.

(** A [token] frame, an [error] frame with the rate-limit body and a
    [token] frame after it, each handed over as one line with a line feed
    inside. *)
Lemma error_frame_terminates_example :
  iterate json example_loads (fun j => inl j) (fun _ => "")
          (map inl [ ("event: token" ++ NL ++ "data: {}")%string;
                     ("event: error" ++ NL ++ "data: " ++ rate_limited_body)%string;
                     ("event: token" ++ NL ++ "data: {}")%string ])
  = ([JObject []],
     Some (Exn StreamingError
             "Error during streaming: Streaming error: rate limited"), 1).
Proof.
  exact (proj1 (error_frame_terminates
                  json example_loads (fun j => inl j) (fun _ => "")
                  [ ("event: token" ++ NL ++ "data: {}")%string;
                    ("event: error" ++ NL ++ "data: " ++ rate_limited_body)%string;
                    ("event: token" ++ NL ++ "data: {}")%string ]
                  [SSEEvent.mk None (Some "token") (Some "{}") None]
                  [SSEEvent.mk None (Some "token") (Some "{}") None]
                  (SSEEvent.mk None (Some "error") (Some rate_limited_body) None)
                  rate_limited_body rate_limited_json [JObject []]
                  eq_refl eq_refl eq_refl eq_refl eq_refl)).
Qed.

(** Three attempts that all fail: sleeps of 1.0 and 2.0 between them. *)
Lemma C5_retry_backoff_witness :
  snd (retry_with_backoff (fun n : nat => (inr "boom" : nat + string, S n))
                          3 1.0%float 2.0%float 60.0%float 0)
  = [Call; Sleep 1.0%float; Call; Sleep 2.0%float; Call].
Proof.
  destruct (C5_retry_backoff nat nat string
              (fun n : nat => (inr "boom" : nat + string, S n)) 3%Z 0
              ltac:(lia))
    as (k & H1 & H2 & Ht & _ & _ & _ & Hl).
  unfold nth_call in Hl. simpl in Hl. destruct Hl as [_ Hk].
  assert (K : k = 3) by lia. subst k. exact Ht.
Defined.

(** The driver itself called with [max_retries = 0], on an operation
    that would return 7: the operation is not called, nothing is
    returned, and the driver fails on [raise None]. *)
Lemma C9_counterexample :
  fst ((fun n : nat => (inl 7 : nat + string, S n)) 0) = inl 7
  /\ retry_with_backoff (fun n : nat => (inl 7 : nat + string, S n))
                        0 1.0%float 2.0%float 60.0%float 0
     = (inr RaiseNone, 0, [])
  /\ calls (snd (retry_with_backoff (fun n : nat => (inl 7 : nat + string, S n))
                                    0 1.0%float 2.0%float 60.0%float 0))
     <> 1.
Proof. repeat split. discriminate. Qed.

(** The same operation behind the gate of the client, and one that
    fails. *)
Lemma C9_no_retries_witness :
  _create_sync (fun n : nat => (inl 7 : nat + string, S n)) 0 0
  = (inl 7, 1, [Call])
  /\ _create_sync (fun n : nat => (inr "boom" : nat + string, S n)) 0 0
     = (inr (Propagate "boom"), 1, [Call]).
Proof.
  split.
  - exact (proj1 (C9_no_retries nat nat string
                    (fun n : nat => (inl 7 : nat + string, S n)) 0)).
  - exact (proj1 (C9_no_retries nat nat string
                    (fun n : nat => (inr "boom" : nat + string, S n)) 0)).
Defined.

(** ** Lines without a line feed *)

(** [iter_lines] of the transport gives lines without their line ends.
    [__iter__] hands every such line to the parser as a block of its own,
    so a frame never has both an event name and data, and no chunk is
    ever yielded. *)

Lemma split1_complete_line (line : string) :
  all_chars not_LF line = true ->
  Py.split1 NLNL (line ++ NLNL) = Some (line, "").
Proof.
  induction line as [|c line IH]; intros H; [reflexivity|].
  simpl in H. apply andb_true_iff in H as [C H].
  simpl append. rewrite split1_eq. unfold NLNL at 1. rewrite prefix_cons.
  destruct (ascii_dec LF c) as [<-|_]; [discriminate C|].
  fold NLNL. now rewrite (IH H).
Qed.

Lemma split_char_single (line : string) :
  all_chars not_LF line = true -> Py.split_char LF line = [line].
Proof.
  induction line as [|c line IH]; intros H; [reflexivity|].
  simpl in H. apply andb_true_iff in H as [C H].
  simpl. unfold not_LF in C. apply negb_true_iff in C. rewrite C.
  now rewrite (IH H).
Qed.

Lemma parse_line_one_field (line : string) :
  SSEEvent.data (SSEParser.parse_line SSEEvent.empty line) <> None ->
  SSEEvent.event (SSEParser.parse_line SSEEvent.empty line) = None.
Proof.
  unfold SSEParser.parse_line.
  destruct (line =? "")%string; [reflexivity|].
  destruct (Py.split1 ":" line) as [[field value]|]; [|reflexivity].
  destruct (field =? "id")%string; [reflexivity|].
  destruct (field =? "event")%string; [intros H; now contradiction H|].
  destruct (field =? "data")%string; [reflexivity|].
  destruct (field =? "retry")%string; [|reflexivity].
  destruct (Py.int (Py.lstrip value)); reflexivity.
Qed.

Lemma single_line_frame (line : string) (event : SSEEvent.t) :
  all_chars not_LF line = true ->
  SSEParser._parse_event line = Some event ->
  SSEEvent.event event = None.
Proof.
  intros H. unfold SSEParser._parse_event. rewrite (split_char_single _ H).
  destruct (Py.strip line =? "")%string; [discriminate|]. simpl.
  destruct (Py.truthy _) eqn:T; [|discriminate].
  intros [= <-]. apply parse_line_one_field.
  destruct (SSEEvent.data _); [discriminate | discriminate T].
Qed.

Lemma single_line_frames (lines : list string) :
  Forall (fun line => all_chars not_LF line = true) lines ->
  Forall (fun event => SSEEvent.event event = None) (frames lines "").
Proof.
  induction 1 as [|line lines Hl _ IH]; [constructor|].
  simpl. destruct (line =? "")%string; [exact IH|].
  rewrite (parse_single _ _ (split1_complete_line _ Hl)).
  destruct (SSEParser._parse_event line) as [event|] eqn:P; [|exact IH].
  constructor; [apply (single_line_frame _ _ Hl P) | exact IH].
Qed.

Section SingleLines.

Variable Chunk : Type.
Variable json_loads : string -> json + string.
Variable ChatCompletionChunk : json -> Chunk + exn.
Variable py_str : json -> string.

Lemma decode_no_event (events : list SSEEvent.t) :
  Forall (fun event => SSEEvent.event event = None) events ->
  fst (decode Chunk json_loads ChatCompletionChunk py_str events) = [].
Proof.
  induction 1 as [|event events He _ IH]; [reflexivity|].
  simpl. unfold _process_event. rewrite He.
  destruct (SSEEvent.data event) as [text|]; [|exact IH].
  destruct (text =? "")%string; [exact IH|].
  destruct (json_loads text); simpl; [exact IH | reflexivity].
Qed.

(** Whatever the lines say, when none of them contains a line feed the
    generator yields no chunk. *)
Lemma single_lines_yield_nothing (lines : list string) :
  Forall (fun line => all_chars not_LF line = true) lines ->
  fst (fst (iterate Chunk json_loads ChatCompletionChunk py_str (map inl lines))) = [].
Proof.
  intros H. unfold iterate. rewrite lines_all_frames.
  pose proof (decode_no_event _ (single_line_frames _ H)) as D.
  destruct (decode _ _ _ _ _) as [chunks [e|]]; exact D.
Qed.

End SingleLines.

(** C2.  The error event of the specification as the line iterator of
    the transport delivers it: the line with the event name, the line
    with the rate-limit body, the blank line that ends the event, and a
    [token] event after it.  [__iter__] parses every line as a block of
    its own, so the frames are the two data lines without an event name,
    the branch of [_process_event] for [error] is never reached, nothing
    is raised and the lines after the error event are processed like the
    others: the generator ends normally without a chunk. *)
Theorem C2_error_lines_raise_nothing :
  frames [ "event: error"; ("data: " ++ rate_limited_body)%string; "";
           "event: token"; "data: {}"; "" ] ""
  = [ SSEEvent.mk None None (Some rate_limited_body) None;
      SSEEvent.mk None None (Some "{}") None ]
  /\ example_loads rate_limited_body = inl rate_limited_json
  /\ iterate json example_loads (fun j => inl j) (fun _ => "")
             (map inl [ "event: error"; ("data: " ++ rate_limited_body)%string; "";
                        "event: token"; "data: {}"; "" ])
     = ([], None, 1).
Proof. repeat split. Qed.

(* ================================================================== *)
(** * Further properties *)
(* ================================================================== *)

(** ** The parser buffer *)

Lemma prefix_drop (sep s : string) :
  prefix sep s = true -> s = (sep ++ Py.drop (String.length sep) s)%string.
Proof.
  revert s; induction sep as [|x sep IH]; intros s H; [reflexivity|].
  destruct s as [|c s]; [discriminate|].
  rewrite prefix_cons in H. destruct (ascii_dec x c) as [<-|]; [|discriminate].
  simpl. f_equal. now apply IH.
Qed.

(** A split puts the text back together around the separator. *)
Lemma split1_join (sep s before after : string) :
  Py.split1 sep s = Some (before, after) ->
  s = (before ++ sep ++ after)%string.
Proof.
  revert before after; induction s as [|c s IH]; intros before after H.
  - destruct sep; simpl in H; [|discriminate]. now injection H as <- <-.
  - rewrite split1_eq in H. destruct (prefix sep (String c s)) eqn:P.
    + injection H as <- <-. simpl. now apply prefix_drop.
    + destruct (Py.split1 sep s) as [[x r]|]; [|discriminate].
      injection H as <- <-. simpl. f_equal. now apply IH.
Qed.

Lemma parse_loop_suffix (n : nat) (buffer : string) :
  exists consumed,
    buffer = (consumed ++ snd (SSEParser.parse_loop n buffer))%string.
Proof.
  revert buffer; induction n as [|n IH]; intros buffer; [now exists ""|].
  simpl. destruct (Py.split1 NLNL buffer) as [[x r]|] eqn:Hs; [|now exists ""].
  destruct (IH r) as [consumed Hc].
  destruct (SSEParser.parse_loop n r) as [events final]. simpl in Hc.
  exists (x ++ NLNL ++ consumed)%string.
  rewrite (split1_join _ _ _ _ Hs), Hc at 1.
  destruct (SSEParser._parse_event x); simpl;
    now rewrite !append_assoc.
Qed.

(** X1.  After a [parse] call the buffer of the parser holds no event
    terminator, and it is the end of what the parser was given: the old
    buffer followed by the chunk is some consumed text followed by the
    new buffer. *)
Theorem X1_parse_buffer (buffer chunk : string) :
  Py.contains NLNL (snd (SSEParser.parse buffer chunk)) = false
  /\ exists consumed,
       (buffer ++ chunk)%string
       = (consumed ++ snd (SSEParser.parse buffer chunk))%string.
Proof.
  split.
  - unfold Py.contains. now rewrite parse_done.
  - unfold SSEParser.parse. apply parse_loop_suffix.
Qed.

(** X2.  Every frame [parse] yields has a [data] that is not empty. *)
Theorem X2_frames_have_data (buffer chunk : string) (event : SSEEvent.t) :
  In event (fst (SSEParser.parse buffer chunk)) ->
  exists v, SSEEvent.data event = Some v /\ v <> "".
Proof.
  intros H. apply parse_loop_truthy in H.
  destruct (SSEEvent.data event) as [v|]; [|discriminate].
  exists v. split; [reflexivity|]. intros ->. discriminate.
Qed.

Lemma X2_frames_have_data_witness :
  exists v, SSEEvent.data (SSEEvent.mk (Some "7") None (Some "x") None) = Some v
            /\ v <> "".
Proof.
  apply (X2_frames_have_data "id: 7" (NL ++ "data: x" ++ NLNL)).
  simpl. now left.
Defined.

Lemma frames_feed (lines : list string) (buffer : string) :
  frames lines buffer
  = fst (SSEParser.feed buffer
           (map (fun line => (line ++ NLNL)%string)
                (filter (fun line => negb (line =? "")%string) lines))).
Proof.
  revert buffer; induction lines as [|line lines IH]; intros buffer; [reflexivity|].
  simpl. destruct (line =? "")%string; simpl; [apply IH|].
  destruct (SSEParser.parse buffer (line ++ NLNL)) as [events buffer'].
  rewrite IH. destruct (SSEParser.feed buffer' _); reflexivity.
Qed.

(** X3.  The frames [__iter__] gets from the lines of the response are
    the frames of one text: the lines that are not empty, each followed
    by a blank line.  Every line is an event block of its own. *)
Theorem X3_lines_are_blocks (lines : list string) :
  frames lines ""
  = fst (SSEParser.parse ""
           (join (map (fun line => (line ++ NLNL)%string)
                      (filter (fun line => negb (line =? "")%string) lines)))).
Proof. rewrite frames_feed, (feed_join _ "" eq_refl). reflexivity. Qed.

(** ** The decoder over a whole stream *)

Section StreamFacts.

Variable Chunk : Type.
Variable json_loads : string -> json + string.
Variable ChatCompletionChunk : json -> Chunk + exn.
Variable py_str : json -> string.

Local Notation "'sprocess'" :=
  (_process_event Chunk json_loads ChatCompletionChunk py_str).
Local Notation "'sdecode'" :=
  (decode Chunk json_loads ChatCompletionChunk py_str).
Local Notation "'siterate'" :=
  (iterate Chunk json_loads ChatCompletionChunk py_str).
Local Notation "'slines_all'" :=
  (lines_all Chunk json_loads ChatCompletionChunk py_str).
Local Notation "'schunk_of'" :=
  (chunk_of Chunk json_loads ChatCompletionChunk).

(** X4.  When no line of the response contains a line feed, which is how
    a line iterator gives them, the generator yields no chunk at all:
    an event name and the data of the same event arrive as two lines,
    hence as two blocks, and the block with the data has no event name. *)
Theorem X4_single_lines_yield_nothing (lines : list string) :
  Forall (fun line => all_chars not_LF line = true) lines ->
  fst (fst (siterate (map inl lines))) = []
  /\ Forall (fun event => SSEEvent.event event = None) (frames lines "").
Proof.
  intros H. split.
  - now apply single_lines_yield_nothing.
  - now apply single_line_frames.
Qed.

(** The decoder on a frame whose data is not JSON, whatever its event. *)
Lemma process_invalid_json (event : SSEEvent.t) (text msg : string) :
  SSEEvent.data event = Some text ->
  text <> "" ->
  json_loads text = inr msg ->
  sprocess event = inr (Exn StreamingError ("Invalid JSON in SSE: " ++ msg)).
Proof.
  intros Hd Ht Hj. unfold _process_event. rewrite Hd.
  apply String.eqb_neq in Ht. now rewrite Ht, Hj.
Qed.

(** X5.  A frame whose data is not JSON ends the stream, whatever its
    event name, also a name the decoder would otherwise pass over: the
    chunks of the frames before it are delivered, then a
    [StreamingError] with the text of the decode error is raised, and
    the response is closed once. *)
Theorem X5_invalid_json_ends_stream
        (lines : list string) (before after : list SSEEvent.t)
        (event : SSEEvent.t) (text msg : string) (chunks : list Chunk) :
  frames lines "" = before ++ event :: after ->
  sdecode before = (chunks, None) ->
  SSEEvent.data event = Some text ->
  json_loads text = inr msg ->
  siterate (map inl lines)
  = (chunks,
     Some (Exn StreamingError
             ("Error during streaming: Invalid JSON in SSE: " ++ msg)), 1).
Proof.
  intros Hf Hb Hd Hj.
  assert (Ht : text <> "").
  { assert (T : Py.truthy (SSEEvent.data event) = true).
    { apply (frames_truthy lines ""). rewrite Hf. apply in_or_app. right. now left. }
    rewrite Hd in T. simpl in T. intros ->. discriminate. }
  unfold iterate, finish. rewrite lines_all_frames, Hf, decode_app, Hb. simpl.
  rewrite (process_invalid_json event text msg Hd Ht Hj).
  rewrite app_nil_r. reflexivity.
Qed.

(** What a frame that raises nothing contributes. *)
Lemma process_chunk_of (event : SSEEvent.t) (r : option Chunk) :
  sprocess event = inl r ->
  schunk_of event = match r with Some chunk => [chunk] | None => [] end.
Proof.
  unfold _process_event, chunk_of, is_chunk_event.
  destruct (SSEEvent.data event) as [text|];
    [|intros [= <-]; now destruct (_ || _)].
  destruct (text =? "")%string; [intros [= <-]; now destruct (_ || _)|].
  destruct (json_loads text) as [data|msg]; [|discriminate].
  destruct (opt_is (SSEEvent.event event) "error") eqn:E.
  { destruct (is_JSONDecodeError _); discriminate. }
  destruct (opt_is (SSEEvent.event event) "result"); simpl.
  { destruct (ChatCompletionChunk data) as [chunk|e].
    - now intros [= <-].
    - destruct (is_JSONDecodeError e); discriminate. }
  destruct (opt_is (SSEEvent.event event) "token").
  { destruct (ChatCompletionChunk data) as [chunk|e].
    - now intros [= <-].
    - destruct (is_JSONDecodeError e); discriminate. }
  now intros [= <-].
Qed.

Lemma decode_all_ok (events : list SSEEvent.t) :
  Forall (fun event => exists r, sprocess event = inl r) events ->
  sdecode events = (flat_map schunk_of events, None).
Proof.
  induction 1 as [|event events [r Hr] _ IH]; [reflexivity|].
  simpl. rewrite Hr, IH, (process_chunk_of _ _ Hr). now destruct r.
Qed.

(** X6.  When no frame of the stream makes the decoder raise, the chunks
    delivered are those of the [result] and [token] frames, one for each,
    in the order of the frames; a frame with another event name, or with
    none, contributes nothing.  The iteration ends normally and the
    response is closed once. *)
Theorem X6_chunks_in_frame_order (lines : list string) :
  Forall (fun event => exists r, sprocess event = inl r) (frames lines "") ->
  siterate (map inl lines) = (flat_map schunk_of (frames lines ""), None, 1).
Proof.
  intros H. unfold iterate, finish.
  now rewrite lines_all_frames, (decode_all_ok _ H).
Qed.

(** The lines before an exception of the transport. *)
Lemma lines_all_transport_error (pre : list string) (e : exn) (post : transport)
      (buffer : string) :
  slines_all (map inl pre ++ inr e :: post) buffer
  = match sdecode (frames pre buffer) with
    | (chunks, Some e') => (chunks, Some e')
    | (chunks, None) => (chunks, Some e)
    end.
Proof.
  revert buffer; induction pre as [|line pre IH]; intros buffer; [reflexivity|].
  simpl. destruct (line =? "")%string; [apply IH|].
  unfold SSEParser.parse. rewrite events_all_frames.
  destruct (SSEParser.parse_loop _ _) as [events buffer'].
  rewrite decode_app. destruct (sdecode events) as [chunks [e'|]]; [reflexivity|].
  rewrite IH. destruct (sdecode (frames pre buffer')) as [chunks' [e'|]]; reflexivity.
Qed.

(** X7.  When the transport raises while the lines are read, the chunks
    of the lines read so far have been delivered, the exception reaches
    the caller as a [StreamingError] that only keeps its text, nothing
    after it is read, and the response is closed once. *)
Theorem X7_transport_error
        (pre : list string) (e : exn) (post : transport) (chunks : list Chunk) :
  sdecode (frames pre "") = (chunks, None) ->
  siterate (map inl pre ++ inr e :: post)
  = (chunks,
     Some (Exn StreamingError ("Error during streaming: " ++ exn_str e)), 1).
Proof.
  intros H. unfold iterate, finish.
  now rewrite lines_all_transport_error, H.
Qed.

End StreamFacts.

Lemma X4_single_lines_yield_nothing_witness :
  fst (fst (iterate json example_loads (fun j => inl j) (fun _ => "")
              (map inl ["event: token"; "data: {}"; ""; "event: error";
                        ("data: " ++ rate_limited_body)%string; ""])))
  = [].
Proof.
  apply (X4_single_lines_yield_nothing json example_loads (fun j => inl j)
           (fun _ => "")).
  repeat constructor.
Defined.

Lemma X5_invalid_json_ends_stream_witness :
  iterate json example_loads (fun j => inl j) (fun _ => "")
          (map inl [ ("event: token" ++ NL ++ "data: {}")%string;
                     ("event: ping" ++ NL ++ "data: hello")%string;
                     ("event: token" ++ NL ++ "data: {}")%string ])
  = ([JObject []],
     Some (Exn StreamingError
             ("Error during streaming: Invalid JSON in SSE: "
              ++ "Expecting value: line 1 column 1 (char 0)")), 1).
Proof.
  exact (X5_invalid_json_ends_stream
           json example_loads (fun j => inl j) (fun _ => "")
           [ ("event: token" ++ NL ++ "data: {}")%string;
             ("event: ping" ++ NL ++ "data: hello")%string;
             ("event: token" ++ NL ++ "data: {}")%string ]
           [SSEEvent.mk None (Some "token") (Some "{}") None]
           [SSEEvent.mk None (Some "token") (Some "{}") None]
           (SSEEvent.mk None (Some "ping") (Some "hello") None)
           "hello" "Expecting value: line 1 column 1 (char 0)" [JObject []]
           eq_refl eq_refl eq_refl eq_refl).
Defined.

Lemma X6_chunks_in_frame_order_witness :
  iterate json example_loads (fun j => inl j) (fun _ => "")
          (map inl [ ("event: token" ++ NL ++ "data: {}")%string;
                     ("event: ping" ++ NL ++ "data: {}")%string;
                     ("event: result" ++ NL ++ "data: " ++ rate_limited_body)%string ])
  = ([JObject []; rate_limited_json], None, 1).
Proof.
  apply (X6_chunks_in_frame_order json example_loads (fun j => inl j) (fun _ => "")
           [ ("event: token" ++ NL ++ "data: {}")%string;
             ("event: ping" ++ NL ++ "data: {}")%string;
             ("event: result" ++ NL ++ "data: " ++ rate_limited_body)%string ]).
  repeat constructor; eexists; reflexivity.
Defined.

Lemma X7_transport_error_witness :
  iterate json example_loads (fun j => inl j) (fun _ => "")
          (map inl [("event: token" ++ NL ++ "data: {}")%string]
           ++ inr (Exn (OtherException "ReadTimeout") "timed out")
           :: [inl "data: {}"])
  = ([JObject []],
     Some (Exn StreamingError "Error during streaming: timed out"), 1).
Proof.
  apply (X7_transport_error json example_loads (fun j => inl j) (fun _ => "")
           [("event: token" ++ NL ++ "data: {}")%string]).
  reflexivity.
Defined.

(** ** The retry driver and the embeddings client *)

Section DriverFacts.

Variables W A E : Type.

(** X8.  With [max_retries] zero or negative the driver never calls
    [func]: the loop has no turn and [raise last_exception] raises
    [None], a [TypeError], whatever [func] would have done. *)
Theorem X8_retry_without_attempts
        (func : W -> (A + E) * W) (N : Z) (d b m : float) (w : W) :
  (N <= 0)%Z ->
  retry_with_backoff func N d b m w = (inr RaiseNone, w, []).
Proof.
  intros H. unfold retry_with_backoff.
  replace (Z.to_nat N) with 0 by lia. reflexivity.
Qed.

Variable _make_request : string -> option string -> W -> (A + E) * W.

(** X9.  [Embeddings.create] makes no request exactly when the text is
    longer than 8192 characters; it then fails on the request model and
    leaves the state alone.  Any other text is requested at least once. *)
Theorem X9_embedding_text_limit
        (max_retries : Z) (text : string) (request_id : option string) (w : W) :
  (calls (snd (Embeddings_create _make_request max_retries text request_id w)) = 0
   <-> (8192 < Z.of_nat (String.length text))%Z)
  /\ ((8192 < Z.of_nat (String.length text))%Z ->
      Embeddings_create _make_request max_retries text request_id w
      = (inr InvalidText, w, [])).
Proof.
  unfold Embeddings_create.
  destruct (8192 <? Z.of_nat (String.length text))%Z eqn:L.
  - apply Z.ltb_lt in L. repeat split; auto.
  - apply Z.ltb_ge in L. split; [|lia].
    destruct (create_sync_calls W A E (_make_request text request_id) max_retries w)
      as [trace Ht].
    destruct (_create_sync _ _ _) as [[[a|f] w'] t]; simpl in Ht |- *; subst t;
      (split; [discriminate | lia]).
Qed.

Lemma create_batch_from_spec (i : nat) (max_retries : Z) (texts : list string)
      (request_id : option string) (w : W) :
  match create_batch_from _make_request i max_retries texts request_id w with
  | (inl results, _, made) =>
      List.length results = List.length texts
      /\ made = combine texts
                        (map (batch_request_id request_id)
                             (seq i (List.length texts)))
  | (inr f, w', made) =>
      exists done text later results w1,
        texts = done ++ text :: later
        /\ fst (create_batch_from _make_request i max_retries done request_id w)
           = (inl results, w1)
        /\ fst (Embeddings_create _make_request max_retries text
                  (batch_request_id request_id (i + List.length done)) w1)
           = (inr f, w')
        /\ made = combine (done ++ [text])
                          (map (batch_request_id request_id)
                               (seq i (S (List.length done))))
  end.
Proof.
  revert i w; induction texts as [|text texts IH]; intros i w; [now split|].
  simpl. destruct (Embeddings_create _ _ text _ w) as [[[a|f] w'] trace] eqn:C.
  - specialize (IH (S i) w').
    destruct (create_batch_from _ (S i) _ texts _ w') as [[[results|f] w''] made].
    + destruct IH as [Hl Hm]. split; [simpl; lia | now rewrite Hm].
    + destruct IH as (done & t & later & results & w1 & Ht & Hd & Hc & Hm).
      exists (text :: done), t, later, (a :: results), w1.
      split; [now rewrite Ht|]. split; [|split].
      * simpl. rewrite C.
        destruct (create_batch_from _ (S i) _ done _ w') as [[r0 w0] made0].
        simpl in Hd. now injection Hd as -> ->.
      * simpl List.length. now replace (i + S (List.length done))
                               with (S i + List.length done) by lia.
      * now rewrite Hm.
  - exists [], text, texts, [], w. simpl.
    rewrite Nat.add_0_r, C. now repeat split.
Qed.


End DriverFacts.

Lemma X8_retry_without_attempts_witness :
  retry_with_backoff (fun n : nat => (inl n : nat + string, S n)) (-2)
                     1.0%float 2.0%float 60.0%float 0
  = (inr RaiseNone, 0, []).
Proof.
  apply (X8_retry_without_attempts nat nat string). lia.
Defined.

(** ** The request builder *)

Lemma thinking_unsupported (model : string) :
  model <> "HCX-007" ->
  validate_model_capability model "thinking"
  = inr (Exn ValueError ("Model " ++ model ++ " does not support thinking mode")).
Proof.
  intros H. unfold validate_model_capability, get_default, capabilities, assoc.
  apply not_eq_sym, String.eqb_neq in H. rewrite H.
  destruct ("HCX-005" =? model)%string; [reflexivity|].
  destruct ("HCX-DASH-002" =? model)%string; reflexivity.
Qed.

(** X11.  For a model other than HCX-007 the request built never has
    [max_completion_tokens]: a value given under that name is moved to
    [max_tokens], and [max_tokens] itself wins when both are given. *)
Theorem X11_other_models_fold
        (model : string) (max_tokens max_completion_tokens : option Z)
        (thinking : option thinking_arg) (req : ChatCompletionRequest.t) :
  model <> "HCX-007" ->
  ChatCompletions.create model max_tokens max_completion_tokens thinking = inl req ->
  ChatCompletionRequest.max_completion_tokens req = None
  /\ ChatCompletionRequest.max_tokens req
     = match max_tokens with
       | Some v => Some v
       | None => max_completion_tokens
       end.
Proof.
  intros Hm. unfold ChatCompletions.create, ChatCompletions.token_params.
  apply String.eqb_neq in Hm. rewrite Hm.
  destruct (if thinking_truthy thinking then _ else _) as [[]|e]; [|discriminate].
  intros H. apply new_inl in H as (H1 & H2 & _). simpl in H1, H2. now split.
Qed.

Lemma X11_other_models_fold_witness :
  ChatCompletionRequest.max_completion_tokens
    (ChatCompletionRequest.mk (Some 300%Z) None None) = None
  /\ ChatCompletionRequest.max_tokens
       (ChatCompletionRequest.mk (Some 300%Z) None None) = Some 300%Z.
Proof.
  apply (X11_other_models_fold "HCX-005" None (Some 300%Z) None
           (ChatCompletionRequest.mk (Some 300%Z) None None)).
  - discriminate.
  - reflexivity.
Defined.

(** X12.  A request that [create] builds never has both limits.  For
    HCX-007 it always has [max_completion_tokens], at least 1, and never
    [max_tokens]. *)
Theorem X12_one_limit_field
        (model : string) (max_tokens max_completion_tokens : option Z)
        (thinking : option thinking_arg) (req : ChatCompletionRequest.t) :
  ChatCompletions.create model max_tokens max_completion_tokens thinking = inl req ->
  (ChatCompletionRequest.max_tokens req = None
   \/ ChatCompletionRequest.max_completion_tokens req = None)
  /\ (model = "HCX-007" ->
      ChatCompletionRequest.max_tokens req = None
      /\ exists v, ChatCompletionRequest.max_completion_tokens req = Some v
                   /\ (1 <= v)%Z).
Proof.
  unfold ChatCompletions.create, ChatCompletions.token_params.
  destruct (if thinking_truthy thinking then _ else _) as [[]|e]; [|discriminate].
  destruct (model =? "HCX-007")%string eqn:M.
  - intros H. pose proof H as H'. apply new_inl in H as (H1 & H2 & _).
    simpl in H1, H2. split; [now left|]. intros _. split; [exact H1|].
    eexists. split; [exact H2|].
    unfold ChatCompletionRequest.new in H'. simpl in H'.
    match type of H' with
    | (if negb (?c) then _ else _) = _ => destruct c eqn:G; [|discriminate]
    end.
    now apply Z.leb_le in G.
  - intros H. apply new_inl in H as (H1 & H2 & _). simpl in H1, H2.
    split; [now right|]. intros ->. discriminate.
Qed.

Lemma X12_one_limit_field_witness :
  (ChatCompletionRequest.max_tokens
     (ChatCompletionRequest.mk None (Some 200%Z) None) = None
   \/ ChatCompletionRequest.max_completion_tokens
        (ChatCompletionRequest.mk None (Some 200%Z) None) = None)
  /\ ("HCX-007" = "HCX-007" ->
      ChatCompletionRequest.max_tokens
        (ChatCompletionRequest.mk None (Some 200%Z) None) = None
      /\ exists v, ChatCompletionRequest.max_completion_tokens
                     (ChatCompletionRequest.mk None (Some 200%Z) None) = Some v
                   /\ (1 <= v)%Z).
Proof.
  apply (X12_one_limit_field "HCX-007" (Some 100%Z) (Some 200%Z) None).
  reflexivity.
Defined.

(** X13.  A thinking configuration that is not empty, given for any
    model other than HCX-007, makes [create] raise [ValueError] in the
    capability check: no request is built, whatever the limits are. *)
Theorem X13_thinking_unsupported
        (model : string) (max_tokens max_completion_tokens : option Z)
        (thinking : option thinking_arg) :
  model <> "HCX-007" ->
  thinking_truthy thinking = true ->
  ChatCompletions.create model max_tokens max_completion_tokens thinking
  = inr (Exn ValueError ("Model " ++ model ++ " does not support thinking mode")).
Proof.
  intros Hm Ht. unfold ChatCompletions.create.
  now rewrite Ht, (thinking_unsupported _ Hm).
Qed.

Lemma X13_thinking_unsupported_witness :
  ChatCompletions.create "HCX-DASH-002" (Some 10%Z) None
                         (Some (ThinkingDict [("effort", "low")]))
  = inr (Exn ValueError "Model HCX-DASH-002 does not support thinking mode").
Proof.
  apply (X13_thinking_unsupported "HCX-DASH-002").
  - discriminate.
  - reflexivity.
Defined.

(** X14.  A limit below 1, given alone under either name, is refused by
    the request model for every model name: [create] raises and builds
    nothing. *)
Theorem X14_limit_below_one (model : string) (v : Z) :
  (v < 1)%Z ->
  ChatCompletions.create model (Some v) None None = inr ChatCompletionRequest.invalid
  /\ ChatCompletions.create model None (Some v) None
     = inr ChatCompletionRequest.invalid.
Proof.
  intros H. apply Z.leb_gt in H.
  unfold ChatCompletions.create, ChatCompletions.token_params,
    ChatCompletionRequest.new.
  simpl. destruct (model =? "HCX-007")%string; simpl; rewrite H; now split.
Qed.

Lemma X14_limit_below_one_witness :
  ChatCompletions.create "HCX-007" (Some 0%Z) None None
  = inr ChatCompletionRequest.invalid
  /\ ChatCompletions.create "HCX-007" None (Some 0%Z) None
     = inr ChatCompletionRequest.invalid.
Proof. apply (X14_limit_below_one "HCX-007" 0). lia. Defined.

(** ** Messages *)

Lemma prepare_item_form (item x : pyval) :
  prepare_item item = inl (Some x) -> prepared_form x.
Proof.
  destruct item as [| | | | |d]; try discriminate.
  unfold prepare_item.
  destruct (PyVal.type_is d "text").
  { destruct (PyVal.getitem (PDict d) "text") as [v|]; [|discriminate].
    intros [= <-]. left. now exists v. }
  destruct (PyVal.type_is d "image_url"); [|discriminate].
  destruct (PyVal.has_key d "image_url").
  { destruct (PyVal.getitem (PDict d) "image_url") as [src|]; [|discriminate].
    destruct (PyVal.getitem src "url") as [v|]; [|discriminate].
    intros [= <-]. right. left. now exists v. }
  destruct (PyVal.has_key d "data_uri"); [|discriminate].
  destruct (PyVal.getitem (PDict d) "data_uri") as [src|]; [|discriminate].
  destruct (PyVal.getitem src "data") as [v|]; [|discriminate].
  intros [= <-]. right. right. now exists v.
Qed.

Lemma prepare_items_form (items prepared : list pyval) :
  prepare_items items = inl prepared -> Forall prepared_form prepared.
Proof.
  revert prepared; induction items as [|item items IH]; intros prepared.
  - intros [= <-]. constructor.
  - simpl. destruct (prepare_item item) as [[x|]|] eqn:P; [| |discriminate];
      destruct (prepare_items items) as [p|]; try discriminate;
      intros [= <-]; [constructor|]; eauto using prepare_item_form.
Qed.



Lemma prepare_prepared_item (x : pyval) :
  prepared_form x ->
  prepare_item x = inl (if is_text_item x then Some x else None).
Proof. intros [[v ->]|[[v ->]|[v ->]]]; reflexivity. Qed.

Lemma prepare_prepared_items (prepared : list pyval) :
  Forall prepared_form prepared ->
  prepare_items prepared = inl (filter is_text_item prepared).
Proof.
  induction 1 as [|x prepared Hx _ IH]; [reflexivity|].
  simpl. rewrite (prepare_prepared_item _ Hx), IH.
  now destruct (is_text_item x).
Qed.

(** X16.  Preparing is not idempotent.  A prepared list that is prepared
    again keeps its text items and loses every image item: the image
    items now carry [imageUrl] or [dataUri], and the function looks for
    [image_url] and [data_uri]. *)
Theorem X16_prepare_twice (items prepared : list pyval) :
  prepare_message_content (PList items) = inl (PList prepared) ->
  prepare_message_content (PList prepared)
  = inl (PList (filter is_text_item prepared)).
Proof.
  intros H. simpl in H.
  destruct (prepare_items items) as [p|] eqn:P; [|discriminate].
  injection H as <-. apply prepare_items_form in P.
  simpl. now rewrite (prepare_prepared_items _ P).
Qed.

Lemma X16_prepare_twice_witness :
  prepare_message_content
    (PList [PDict [("type", PStr "text"); ("text", PStr "hi")];
            PDict [("type", PStr "image_url");
                   ("imageUrl", PDict [("url", PStr "u")])]])
  = inl (PList [PDict [("type", PStr "text"); ("text", PStr "hi")]]).
Proof.
  apply (X16_prepare_twice
           [PDict [("type", PStr "text"); ("text", PStr "hi")];
            PDict [("type", PStr "image_url");
                   ("image_url", PDict [("url", PStr "u")])]]).
  reflexivity.
Defined.

(** X17.  One bad item makes the whole call raise: when the items before
    it raise nothing, the exception of the first item that raises is the
    exception of [prepare_message_content], and no list is returned.  A
    [text] item without a [text] key is such an item: it raises
    [KeyError], it is not passed over. *)
Theorem X17_item_error_propagates :
  (forall (before after : list pyval) (item : pyval) (e : exn),
      Forall (fun x => ~ raises (prepare_item x)) before ->
      prepare_item item = inr e ->
      prepare_message_content (PList (before ++ item :: after)) = inr e)
  /\ (forall d,
         PyVal.type_is d "text" = true ->
         assoc "text" d = None ->
         prepare_item (PDict d) = inr (Exn KeyError "'text'")).
Proof.
  split.
  - intros before after item e Hb He. simpl.
    replace (prepare_items (before ++ item :: after)) with (@inr (list pyval) exn e);
      [reflexivity|].
    induction Hb as [|x before Hx _ IH]; simpl.
    + now rewrite He.
    + destruct (prepare_item x) as [o|e']; [|exfalso; apply Hx; apply raises_inr].
      now rewrite <- IH.
  - intros d T K. unfold prepare_item, PyVal.getitem. now rewrite T, K.
Qed.

Lemma X17_item_error_propagates_witness :
  prepare_message_content
    (PList ([PStr "skipped"; PDict [("type", PStr "text"); ("text", PStr "a")]]
            ++ PDict [("type", PStr "text")] :: [PDict [("type", PStr "text");
                                                        ("text", PStr "b")]]))
  = inr (Exn KeyError "'text'").
Proof.
  apply (proj1 X17_item_error_propagates).
  - repeat constructor; intros [e H]; discriminate.
  - reflexivity.
Defined.

Lemma vision_check (model : string) :
  validate_model_capability model "vision"
  = if mem "vision" (get_default capabilities model [])
    then inl tt
    else inr (Exn ValueError ("Model " ++ model ++ " does not support image input")).
Proof.
  unfold validate_model_capability. simpl String.eqb. simpl andb.
  destruct (mem "vision" _); reflexivity.
Qed.

Lemma vision_models (model : string) :
  mem "vision" (get_default capabilities model []) = (model =? "HCX-005")%string.
Proof.
  unfold get_default, capabilities, assoc. rewrite (String.eqb_sym model).
  destruct ("HCX-005" =? model)%string; [reflexivity|].
  destruct ("HCX-007" =? model)%string; [reflexivity|].
  destruct ("HCX-DASH-002" =? model)%string; reflexivity.
Qed.

Lemma check_vision_spec (model : string) (messages : list pyval) :
  check_vision model messages
  = if existsb (fun msg => content_has_image (checked_content msg)) messages
       && negb (model =? "HCX-005")%string
    then inr (Exn ValueError ("Model " ++ model ++ " does not support image input"))
    else inl tt.
Proof.
  induction messages as [|msg messages IH]; [reflexivity|].
  simpl. rewrite IH, vision_check, vision_models.
  destruct (content_has_image (checked_content msg)); simpl; [|reflexivity].
  destruct (model =? "HCX-005")%string; simpl; [|reflexivity].
  now rewrite andb_false_r.
Qed.

(** X18.  The image check of [create] raises exactly when some message
    given as a dict has a list content with an item tagged [image_url]
    and the model is not HCX-005, the only model with vision.  It looks
    at the tag alone: an image item that the preparation would pass over
    for want of a source is enough. *)
Theorem X18_vision_check (model : string) (messages : list pyval) :
  (raises (check_vision model messages)
   <-> existsb (fun msg => content_has_image (checked_content msg)) messages = true
       /\ model <> "HCX-005")
  /\ (model <> "HCX-005" ->
      create_messages model
        [PDict [("role", PStr "user");
                ("content", PList [PDict [("type", PStr "image_url")]])]]
      = inr (Exn ValueError ("Model " ++ model ++ " does not support image input"))).
Proof.
  split.
  - rewrite check_vision_spec.
    destruct (existsb _ messages); simpl.
    + destruct (model =? "HCX-005")%string eqn:M; simpl.
      * apply String.eqb_eq in M. split; [intros H; now apply raises_inl in H|].
        intros [_ H]. contradiction.
      * apply String.eqb_neq in M. split; [now split | intros _; apply raises_inr].
    + split; [intros H; now apply raises_inl in H | intros [H _]; discriminate].
  - intros M. unfold create_messages. rewrite check_vision_spec.
    apply String.eqb_neq in M. simpl. now rewrite M.
Qed.



(** ** Status codes *)

Section StatusFacts.

Variable py_str : json -> string.

Local Notation "'raise_for'" := (raise_for_status_code py_str).

(** X20.  The class of the error [raise_for_status_code] raises depends
    on the status code alone: 401 and 403 give [AuthenticationError], 429
    gives [RateLimitError], the other codes from 400 to 499 give
    [InvalidRequestError], 500 to 599 give [ServerError], and every code
    below 400 or from 600 on gives the plain [HyperClovaError].  The
    error carries the status code and the response it was given. *)
Theorem X20_error_class (status_code : Z) (response : json) (e : Exceptions.t) :
  raise_for status_code response = inl e ->
  (Exceptions.cls e = Exceptions.AuthenticationError
   <-> status_code = 401 \/ status_code = 403)%Z
  /\ (Exceptions.cls e = Exceptions.RateLimitError <-> status_code = 429)%Z
  /\ (Exceptions.cls e = Exceptions.InvalidRequestError
      <-> 400 <= status_code < 500 /\ status_code <> 401
          /\ status_code <> 403 /\ status_code <> 429)%Z
  /\ (Exceptions.cls e = Exceptions.ServerError <-> 500 <= status_code < 600)%Z
  /\ (Exceptions.cls e = Exceptions.HyperClovaError
      <-> status_code < 400 \/ 600 <= status_code)%Z
  /\ Exceptions.status_code e = Some status_code
  /\ Exceptions.response e = Some response.
Proof.
  unfold raise_for_status_code.
  destruct (JSON.get response "status" (JObject [])) as [status|]; [|discriminate].
  destruct (JSON.get status "message" _) as [message|]; [|discriminate].
  destruct (JSON.get status "code" _) as [code|]; [|discriminate].
  destruct (status_code =? 401)%Z eqn:E1;
    [apply Z.eqb_eq in E1; intros [= <-]; simpl; repeat split;
     try lia; try discriminate; auto|].
  destruct (status_code =? 403)%Z eqn:E2;
    [apply Z.eqb_eq in E2; intros [= <-]; simpl; repeat split;
     try lia; try discriminate; auto|].
  destruct (status_code =? 404)%Z eqn:E3;
    [apply Z.eqb_eq in E3; intros [= <-]; simpl; repeat split;
     try lia; try discriminate; auto|].
  destruct (status_code =? 429)%Z eqn:E4;
    [apply Z.eqb_eq in E4; intros [= <-]; simpl; repeat split;
     try lia; try discriminate; auto|].
  apply Z.eqb_neq in E1, E2, E3, E4.
  destruct ((400 <=? status_code) && (status_code <? 500))%Z eqn:E5.
  { apply andb_true_iff in E5 as [L U]. apply Z.leb_le in L. apply Z.ltb_lt in U.
    intros [= <-]; simpl; repeat split; try lia; try discriminate; auto. }
  destruct ((500 <=? status_code) && (status_code <? 600))%Z eqn:E6.
  { apply andb_true_iff in E6 as [L U]. apply Z.leb_le in L. apply Z.ltb_lt in U.
    intros [= <-]; simpl; repeat split; try lia; try discriminate; auto. }
  apply andb_false_iff in E5, E6.
  rewrite Z.leb_gt, Z.ltb_ge in E5, E6.
  intros [= <-]; simpl; repeat split; try lia; try discriminate; auto.
Qed.

(** X21.  When the response is not a dict, or its [status] is there and
    is not a dict, [raise_for_status_code] raises [AttributeError] and no
    error of the library, whatever the status code; in every other case
    it raises an error of the library. *)
Theorem X21_malformed_response (status_code : Z) :
  (forall response,
      JSON.type_name response <> "dict" ->
      raise_for status_code response
      = inr (Exn AttributeError
               ("'" ++ JSON.type_name response ++ "' object has no attribute 'get'")))
  /\ (forall members status,
         assoc "status" members = Some status ->
         JSON.type_name status <> "dict" ->
         raise_for status_code (JObject members)
         = inr (Exn AttributeError
                  ("'" ++ JSON.type_name status ++ "' object has no attribute 'get'")))
  /\ (forall members,
         JSON.type_name (get_default members "status" (JObject [])) = "dict" ->
         exists e, raise_for status_code (JObject members) = inl e).
Proof.
  split; [|split].
  - intros response H. unfold raise_for_status_code, JSON.get.
    destruct response; try reflexivity. now contradiction H.
  - intros members status S H. unfold raise_for_status_code, JSON.get, get_default.
    rewrite S. destruct status; try reflexivity. now contradiction H.
  - intros members H. unfold raise_for_status_code, JSON.get.
    destruct (get_default members "status" (JObject [])); try discriminate.
    repeat match goal with
           | |- context [if ?c then _ else _] => destruct c
           end; eauto.
Qed.

End StatusFacts.

Lemma X20_error_class_witness :
  Exceptions.cls
    (Exceptions.mk Exceptions.HyperClovaError
       (JString "Unexpected status code: 42901") (Some (JString "42901"))
       (Some 42901%Z) (Some rate_limited_json))
  = Exceptions.HyperClovaError
  <-> (42901 < 400 \/ 600 <= 42901)%Z.
Proof.
  apply (X20_error_class (fun _ => "") 42901 rate_limited_json).
  reflexivity.
Defined.

Lemma X21_malformed_response_witness :
  raise_for_status_code (fun _ => "") 500 (JArray [])
  = inr (Exn AttributeError "'list' object has no attribute 'get'").
Proof.
  apply (proj1 (X21_malformed_response (fun _ => "") 500)). discriminate.
Defined.

(** ** Configuration and defaults *)



(** X23.  [get_max_tokens] is 4096 for every model name other than
    HCX-007, whatever the effort, and for HCX-007 without an effort (not
    the 2048 that [create] uses in that case).  For HCX-007 with an
    effort outside the table it is 5120, the budget of [low]. *)
Theorem X23_max_tokens_defaults :
  (forall model effort, model <> "HCX-007" -> get_max_tokens model effort = 4096%Z)
  /\ get_max_tokens "HCX-007" None = 4096%Z
  /\ get_max_tokens "HCX-007" (Some "") = 4096%Z
  /\ (forall effort, effort <> "" -> parse_effort effort = None ->
                     get_max_tokens "HCX-007" (Some effort) = 5120%Z)
  /\ (forall e, get_max_tokens "HCX-007" (Some (effort_name e)) = effort_budget e).
Proof.
  repeat split.
  - intros model effort H. unfold get_max_tokens.
    apply String.eqb_neq in H. rewrite H. simpl.
    unfold get_default, model_defaults, assoc.
    destruct ("HCX-005" =? model)%string; [reflexivity|].
    destruct ("HCX-007" =? model)%string; [reflexivity|].
    destruct ("HCX-DASH-002" =? model)%string; reflexivity.
  - intros effort Hn Hp. unfold get_max_tokens. simpl String.eqb.
    apply String.eqb_neq in Hn. simpl. rewrite Hn. simpl.
    unfold parse_effort in Hp. unfold get_default, effort_defaults, assoc.
    rewrite (String.eqb_sym "none"), (String.eqb_sym "low"),
      (String.eqb_sym "medium"), (String.eqb_sym "high").
    destruct (effort =? "none")%string; [discriminate|].
    destruct (effort =? "low")%string; [discriminate|].
    destruct (effort =? "medium")%string; [discriminate|].
    destruct (effort =? "high")%string; [discriminate | reflexivity].
  - intros []; reflexivity.
Qed.

Lemma X23_max_tokens_defaults_witness :
  get_max_tokens "HCX-005" (Some "high") = 4096%Z
  /\ get_max_tokens "HCX-007" (Some "extreme") = 5120%Z.
Proof.
  split.
  - apply (proj1 X23_max_tokens_defaults). discriminate.
  - apply (proj1 (proj2 (proj2 (proj2 X23_max_tokens_defaults))));
      [discriminate | reflexivity].
Defined.

(** X24.  A model name outside the table fails the capability check for
    each of the four features, and function calling is accepted for
    exactly the three models of the table. *)
Theorem X24_unknown_model (model : string) :
  (model <> "HCX-005" -> model <> "HCX-007" -> model <> "HCX-DASH-002" ->
   forall feature, In feature known_features ->
                   raises (validate_model_capability model feature))
  /\ (raises (validate_model_capability model "function_calling")
      <-> model <> "HCX-005" /\ model <> "HCX-007" /\ model <> "HCX-DASH-002").
Proof.
  assert (T : get_default capabilities model []
              = if ("HCX-005" =? model)%string then ["vision"; "function_calling"]
                else if ("HCX-007" =? model)%string
                     then ["thinking"; "structured_output"; "function_calling"]
                     else if ("HCX-DASH-002" =? model)%string
                          then ["function_calling"] else []).
  { unfold get_default, capabilities, assoc.
    destruct ("HCX-005" =? model)%string; [reflexivity|].
    destruct ("HCX-007" =? model)%string; [reflexivity|].
    destruct ("HCX-DASH-002" =? model)%string; reflexivity. }
  split.
  - intros H1 H2 H3 feature F.
    apply not_eq_sym, String.eqb_neq in H1, H2, H3.
    unfold validate_model_capability. rewrite T, H1, H2, H3. simpl in F.
    destruct F as [<-|[<-|[<-|[<-|[]]]]]; apply raises_inr.
  - unfold validate_model_capability. rewrite T.
    destruct ("HCX-005" =? model)%string eqn:E1.
    { apply String.eqb_eq in E1. simpl.
      split; [intros H; now apply raises_inl in H | intros [H _]; congruence]. }
    destruct ("HCX-007" =? model)%string eqn:E2.
    { apply String.eqb_eq in E2. simpl.
      split; [intros H; now apply raises_inl in H | intros [_ [H _]]; congruence]. }
    destruct ("HCX-DASH-002" =? model)%string eqn:E3.
    { apply String.eqb_eq in E3. simpl.
      split; [intros H; now apply raises_inl in H | intros [_ [_ H]]; congruence]. }
    apply String.eqb_neq in E1, E2, E3. simpl.
    split; [intros _; repeat split; congruence | intros _; apply raises_inr].
Qed.

Lemma X24_unknown_model_witness :
  raises (validate_model_capability "HCX-003" "vision").
Proof.
  apply (proj1 (X24_unknown_model "HCX-003")); try discriminate.
  simpl. auto.
Defined.

(** ** Image URLs *)

Lemma lower_app (a b : string) : lower (a ++ b) = (lower a ++ lower b)%string.
Proof. induction a as [|c a IH]; simpl; [reflexivity | now rewrite IH]. Qed.

Lemma lower_length (s : string) : String.length (lower s) = String.length s.
Proof. induction s as [|c s IH]; simpl; [reflexivity | now rewrite IH]. Qed.

Lemma lower_char_idem (c : ascii) : lower_char (lower_char c) = lower_char c.
Proof. destruct c as [[] [] [] [] [] [] [] []]; reflexivity. Qed.

Lemma lower_idem (s : string) : lower (lower s) = lower s.
Proof.
  induction s as [|c s IH]; simpl; [reflexivity|].
  now rewrite lower_char_idem, IH.
Qed.

Lemma drop_stem (stem suffix : string) :
  Py.drop (String.length stem) (stem ++ suffix) = suffix.
Proof. induction stem as [|c stem IH]; simpl; [reflexivity | exact IH]. Qed.

Lemma endswith_app (stem suffix : string) : endswith (stem ++ suffix) suffix = true.
Proof.
  unfold endswith. rewrite length_append.
  replace (String.length stem + String.length suffix - String.length suffix)
    with (String.length stem) by lia.
  rewrite drop_stem, String.eqb_refl.
  apply andb_true_iff. split; [apply Nat.leb_le; lia | reflexivity].
Qed.

Lemma drop_split (n : nat) (s : string) :
  exists stem, s = (stem ++ Py.drop n s)%string.
Proof.
  revert s; induction n as [|n IH]; intros s; [now exists ""|].
  destruct s as [|c s]; [now exists ""|].
  destruct (IH s) as [stem H]. exists (String c stem). simpl. now f_equal.
Qed.

Lemma endswith_inv (s suffix : string) :
  endswith s suffix = true -> exists stem, s = (stem ++ suffix)%string.
Proof.
  unfold endswith. intros H. apply andb_true_iff in H as [_ H].
  apply String.eqb_eq in H.
  destruct (drop_split (String.length s - String.length suffix) s) as [stem E].
  exists stem. now rewrite H in E.
Qed.



(** ** The OpenAI format *)

Section ConvertFacts.

Variable py_str : json -> string.
Variable float_floordiv : float -> Z -> float.
Variables now_s now_ms : Z.

Local Notation "'convert'" :=
  (convert_to_openai_format py_str float_floordiv now_s now_ms).

(** X26.  A response without [result] converts to a completion made of
    the defaults: role [assistant], empty content, no finish reason, zero
    usage, an empty fingerprint, and the current time in whole seconds as
    [created]. *)
Theorem X26_convert_defaults (members : list (string * json)) :
  assoc "result" members = None ->
  convert (JObject members)
  = inl (JObject
           [ ("id", JString ("chatcmpl-" ++ str_of_int now_s));
             ("object", JString "chat.completion");
             ("created", JInt (now_ms / 1000));
             ("model", JString "hyperclova");
             ("choices",
              JArray [JObject [("index", JInt 0);
                               ("message", JObject [("role", JString "assistant");
                                                    ("content", JString "")]);
                               ("finish_reason", JNull)]]);
             ("usage", JObject [ ("prompt_tokens", JInt 0);
                                 ("completion_tokens", JInt 0);
                                 ("total_tokens", JInt 0) ]);
             ("system_fingerprint", JString "") ]).
Proof.
  intros H. unfold convert_to_openai_format, JSON.get, get_default.
  rewrite H. reflexivity.
Qed.

(** X27.  The conversion raises [AttributeError] when the response is
    not a dict and when its [result] is there and is not a dict, as in a
    response with a null [result]. *)
Theorem X27_convert_malformed :
  (forall response,
      JSON.type_name response <> "dict" ->
      convert response
      = inr (Exn AttributeError
               ("'" ++ JSON.type_name response ++ "' object has no attribute 'get'")))
  /\ (forall members result,
         assoc "result" members = Some result ->
         JSON.type_name result <> "dict" ->
         convert (JObject members)
         = inr (Exn AttributeError
                  ("'" ++ JSON.type_name result ++ "' object has no attribute 'get'"))).
Proof.
  split.
  - intros response H. unfold convert_to_openai_format, JSON.get.
    destruct response; try reflexivity. now contradiction H.
  - intros members result R H.
    unfold convert_to_openai_format, JSON.get, get_default. rewrite R.
    destruct result; try reflexivity. now contradiction H.
Qed.

(** X28.  Whenever the conversion returns, the completion has the model
    name [hyperclova] and exactly one choice, of index 0, whatever the
    response holds; and a [created] given in milliseconds as an integer
    comes out in whole seconds, rounded down. *)
Theorem X28_convert_form (response out : json) :
  convert response = inl out ->
  (exists created message finish usage fingerprint,
      out = JObject
              [ ("id", JString ("chatcmpl-" ++ str_of_int now_s));
                ("object", JString "chat.completion");
                ("created", created);
                ("model", JString "hyperclova");
                ("choices",
                 JArray [JObject [("index", JInt 0);
                                  ("message", JObject message);
                                  ("finish_reason", finish)]]);
                ("usage", JObject usage);
                ("system_fingerprint", JString fingerprint) ])
  /\ (forall members result ms,
         response = JObject members ->
         assoc "result" members = Some (JObject result) ->
         assoc "created" result = Some (JInt ms) ->
         JSON.get out "created" JNull = inl (JInt (ms / 1000))).
Proof.
  intros H. split.
  - revert H. unfold convert_to_openai_format.
    repeat match goal with
           | |- context [match ?c with inl _ => _ | inr _ => _ end] =>
               destruct c; [|discriminate]
           end.
    intros [= <-]. repeat eexists.
  - intros members result ms -> R C. revert H.
    unfold convert_to_openai_format, JSON.get, get_default. rewrite R.
    cbv beta iota. rewrite C. unfold floordiv. cbv beta iota.
    repeat match goal with
           | |- context [match ?c with inl _ => _ | inr _ => _ end] =>
               destruct c; [|discriminate]
           end.
    intros [= <-]. reflexivity.
Qed.

End ConvertFacts.

Lemma X26_convert_defaults_witness :
  exists out,
    convert_to_openai_format (fun _ => "") (fun x _ => x) 1700000000 1700000000123
                             (JObject [("status", JObject [])])
    = inl out.
Proof.
  eexists.
  apply (X26_convert_defaults (fun _ => "") (fun x _ => x) 1700000000 1700000000123
           [("status", JObject [])]).
  reflexivity.
Defined.

Lemma X27_convert_malformed_witness :
  convert_to_openai_format (fun _ => "") (fun x _ => x) 0 0
                           (JObject [("result", JNull)])
  = inr (Exn AttributeError "'NoneType' object has no attribute 'get'").
Proof.
  apply (proj2 (X27_convert_malformed (fun _ => "") (fun x _ => x) 0 0)
           [("result", JNull)] JNull); [reflexivity | discriminate].
Defined.

Lemma X28_convert_form_witness :
  JSON.get
    (JObject
       [ ("id", JString "chatcmpl-5");
         ("object", JString "chat.completion");
         ("created", JInt 1);
         ("model", JString "hyperclova");
         ("choices",
          JArray [JObject [("index", JInt 0);
                           ("message", JObject [("role", JString "assistant");
                                                ("content", JString "")]);
                           ("finish_reason", JNull)]]);
         ("usage", JObject [ ("prompt_tokens", JInt 0);
                             ("completion_tokens", JInt 0);
                             ("total_tokens", JInt 0) ]);
         ("system_fingerprint", JString "") ])
    "created" JNull
  = inl (JInt (1999 / 1000)).
Proof.
  apply (proj2 (X28_convert_form (fun _ => "") (fun x _ => x) 5 0
                  (JObject [("result", JObject [("created", JInt 1999)])]) _
                  eq_refl)
           [("result", JObject [("created", JInt 1999)])]
           [("created", JInt 1999)] 1999%Z); reflexivity.
Defined.

Lemma X9_embedding_text_limit_witness :
  calls (snd (Embeddings_create
                (fun (_ : string) (_ : option string) (n : nat) =>
                   (inl n : nat + string, S n))
                3 "hello" None 0)) = 0
  <-> (8192 < Z.of_nat (String.length "hello"))%Z.
Proof.
  apply (proj1 (X9_embedding_text_limit nat nat string
                  (fun (_ : string) (_ : option string) (n : nat) =>
                     (inl n : nat + string, S n))
                  3 "hello" None 0)).
Defined.

Lemma X18_vision_check_witness :
  create_messages "HCX-007"
    [PDict [("role", PStr "user");
            ("content", PList [PDict [("type", PStr "image_url")]])]]
  = inr (Exn ValueError "Model HCX-007 does not support image input").
Proof.
  apply (proj2 (X18_vision_check "HCX-007" [])). discriminate.
Defined.
